(** * BatchCreator: building OpenAI Batch API [.jsonl] files

    A shallow embedding of [batch_creator.py] and the properties of its
    [BatchCreator] class.

    Conventions of the model.
    - A Python [str] is a [string] holding the UTF-8 encoding of the text
      (the file is opened with [encoding='utf-8'], and [json.dumps] is
      called with [ensure_ascii=False], so every byte above 127 goes to the
      file as it is); the text is well formed, without lone surrogates.
    - A Python [int] is a [Z]. The interpreter is a 64-bit CPython with
      the default limit of 4300 digits on the conversion of an [int] to
      text ([sys.int_max_str_digits]).
    - A Python [dict] is an association list in insertion order, because
      [json.dumps] writes the keys in that order.
    - Values handed to [json.dumps] are JSON values without floats, nested
      less deeply than the recursion limit of the interpreter allows.
    - Values are immutable: a caller that changes the schema dict or a
      previewed entry in place is outside the model.
    - The system is POSIX: paths are parsed as [pathlib.PurePosixPath]
      does, a newline is written as it is, and a path names its file
      directly (no links).
    - A save that fails does so when the file is opened or when an entry
      is encoded; the lines written before stay in the file.
    - Methods are computations in a state and exception monad over a
      [World]: the object, the module's [__file__] and the file system. *)

From Stdlib Require Import String Ascii List ZArith Lia Bool DecimalString.
Import ListNotations.

Local Open Scope list_scope.
Local Open Scope string_scope.

(** ** Characters that string literals cannot hold directly *)

Definition dquote : ascii := "034"%char.
Definition backslash : ascii := "092"%char.
Definition newline : ascii := "010"%char.
Definition nul : ascii := "000"%char.

(** ["\n"] of Python. *)
Definition nl : string := String newline "".

(** Does the character occur in the text? *)
Fixpoint contains (c : ascii) (s : string) : bool :=
  match s with
  | EmptyString => false
  | String c' s' => Ascii.eqb c' c || contains c s'
  end.

(** ** Python values *)

Module Py.

(** The values [json.dumps] accepts here: [None], [bool], [int], [str],
    [list] and [dict] with [str] keys. *)
#[warnings="-register-all"]
Inductive value : Type :=
| VNone
| VBool (b : bool)
| VInt (z : Z)
| VStr (s : string)
| VList (l : list value)
| VDict (d : list (string * value)).

(** A [dict] with [str] keys, in insertion order. *)
Definition dict : Type := list (string * value).

(** [d.get(k)]: the value stored under [k], if any. *)
Fixpoint dict_get (d : dict) (k : string) : option value :=
  match d with
  | [] => None
  | (k', v') :: d' => if String.eqb k' k then Some v' else dict_get d' k
  end.

(** [d[k] = v]: an existing key keeps its position and gets the new value,
    a new key goes to the end. *)
Fixpoint dict_set (d : dict) (k : string) (v : value) : dict :=
  match d with
  | [] => [(k, v)]
  | (k', v') :: d' =>
      if String.eqb k' k then (k', v) :: d' else (k', v') :: dict_set d' k v
  end.

(** A dict display [{k1: v1, ..., kn: vn}]: the items are stored from left
    to right. *)
Definition dict_display (items : list (string * value)) : dict :=
  fold_left (fun d kv => dict_set d (fst kv) (snd kv)) items [].

(** The keys of a dict, in insertion order. *)
Definition dict_keys (d : dict) : list string := map fst d.

(** Exceptions raised by the modelled code. *)
Inductive exception : Type :=
| IndexError (msg : string)
| OSError (filename : string)
| ValueError (msg : string).

Inductive result (A : Type) : Type :=
| Ok (a : A)
| Raise (e : exception).
Arguments Ok {A} a.
Arguments Raise {A} e.

(** The decimal digits of an integer, with a minus sign when negative. *)
Definition decimal (z : Z) : string := NilZero.string_of_int (Z.to_int z).

(** [sys.int_max_str_digits], at its default. *)
Definition int_max_str_digits : Z := 4300.

(** The integers from this size on have more digits than the limit. *)
Definition int_str_limit : Z := 10 ^ int_max_str_digits.

(** [str(z)] for an [int]: refused ([ValueError]) when [z] has more than
    [int_max_str_digits] digits, not counting the sign. *)
Definition str_of_int (z : Z) : result string :=
  if (int_str_limit <=? Z.abs z)%Z
  then Raise (ValueError
                ("Exceeds the limit (4300 digits) for integer string conversion; "
                 ++ "use sys.set_int_max_str_digits() to increase the limit"))
  else Ok (decimal z).

(** [sys.maxsize + 1]: an index must be from [- 2^63] to [2^63 - 1]. *)
Definition index_limit : Z := 2 ^ 63.

(** [l[i]] on a list: a negative index counts from the end, and an index
    outside [-len(l) .. len(l)-1] raises the interpreter's [IndexError],
    with a message of its own when the index is not of the size of an
    index. A list of the interpreter holds fewer than [2^63] elements, so
    an index within the list is always of that size. *)
Definition list_getitem {A : Type} (l : list A) (i : Z) : result A :=
  let n := Z.of_nat (length l) in
  let j := if (i <? 0)%Z then (i + n)%Z else i in
  let error :=
    IndexError (if ((i <? - index_limit)%Z || (index_limit <=? i)%Z)%bool
                then "cannot fit 'int' into an index-sized integer"
                else "list index out of range") in
  if ((j <? 0)%Z || (n <=? j)%Z)%bool
  then Raise error
  else match nth_error l (Z.to_nat j) with
       | Some x => Ok x
       | None => Raise error
       end.

End Py.

(** ** [json.dumps(obj, ensure_ascii=False)] *)

Module Json.
Import Py.

Definition hexdigit (n : nat) : string :=
  match n with
  | 0 => "0" | 1 => "1" | 2 => "2" | 3 => "3" | 4 => "4" | 5 => "5"
  | 6 => "6" | 7 => "7" | 8 => "8" | 9 => "9" | 10 => "a" | 11 => "b"
  | 12 => "c" | 13 => "d" | 14 => "e" | _ => "f"
  end.

(** [ESCAPE_DCT] of the encoder: backslash, quote and the control characters
    below 32 are replaced; everything else is kept. *)
Definition escape_char (c : ascii) : string :=
  let n := nat_of_ascii c in
  if Nat.eqb n 92 then String backslash (String backslash "")
  else if Nat.eqb n 34 then String backslash (String dquote "")
  else if Nat.eqb n 8 then String backslash "b"
  else if Nat.eqb n 12 then String backslash "f"
  else if Nat.eqb n 10 then String backslash "n"
  else if Nat.eqb n 13 then String backslash "r"
  else if Nat.eqb n 9 then String backslash "t"
  else if Nat.ltb n 32
       then String backslash "u00" ++ hexdigit (n / 16) ++ hexdigit (n mod 16)
       else String c "".

Fixpoint escape (s : string) : string :=
  match s with
  | EmptyString => ""
  | String c s' => escape_char c ++ escape s'
  end.

(** [encode_basestring]: the escaped text between two quotes. *)
Definition encode_basestring (s : string) : string :=
  String dquote (escape s ++ String dquote "").

(** [sep.join(items)]. *)
Fixpoint join (sep : string) (items : list string) : string :=
  match items with
  | [] => ""
  | [x] => x
  | x :: xs => x ++ sep ++ join sep xs
  end.

(** The first exception stops an evaluation. *)
Definition and_then {A B : Type} (r : result A) (k : A -> result B)
  : result B :=
  match r with
  | Ok a => k a
  | Raise e => Raise e
  end.

(** The results of the pieces, from left to right, up to the first
    exception. *)
Fixpoint sequence {A : Type} (rs : list (result A)) : result (list A) :=
  match rs with
  | [] => Ok []
  | r :: rs' =>
      and_then r (fun a => and_then (sequence rs') (fun l => Ok (a :: l)))
  end.

(** The encoder with the default separators [", "] and [": "]. An [int] is
    written by [str_of_int], so one with too many digits makes the whole
    call raise [ValueError]. *)
Fixpoint dumps (v : value) : result string :=
  match v with
  | VNone => Ok "null"
  | VBool true => Ok "true"
  | VBool false => Ok "false"
  | VInt z => str_of_int z
  | VStr s => Ok (encode_basestring s)
  | VList l =>
      and_then (sequence (map dumps l))
        (fun items => Ok ("[" ++ join ", " items ++ "]"))
  | VDict d =>
      and_then
        (sequence
           (map (fun kv =>
                   and_then (dumps (snd kv))
                     (fun t => Ok (encode_basestring (fst kv) ++ ": " ++ t)))
              d))
        (fun items => Ok ("{" ++ join ", " items ++ "}"))
  end.

End Json.

(** ** [pathlib.Path] on a POSIX system *)

Module PathLib.

(** A parsed path: the root (empty, one slash or two slashes) and the
    components after it. There is no drive on POSIX. *)
Record Path : Type := mkPath { root : string; parts : list string }.

(** [s.split(sep)]: the pieces between the separators; never empty. *)
Fixpoint split (sep : ascii) (s : string) : list string :=
  match s with
  | EmptyString => [""]
  | String c s' =>
      if Ascii.eqb c sep then "" :: split sep s'
      else String c (hd "" (split sep s')) :: tl (split sep s')
  end.

(** [posixpath.splitroot]: exactly two leading slashes are a root of their
    own, any other number of leading slashes is the root [/]. *)
Definition splitroot (s : string) : string * string :=
  match s with
  | String "/" (String "/" (String "/" r)) => ("/", String "/" (String "/" r))
  | String "/" (String "/" r) => ("//", r)
  | String "/" r => ("/", r)
  | _ => ("", s)
  end.

(** A component is kept unless it is empty or a single dot. *)
Definition kept (x : string) : bool :=
  negb (String.eqb x "") && negb (String.eqb x ".").

(** The components of a path string without its root. *)
Definition segments (rel : string) : list string :=
  filter kept (split "/" rel).

(** [Path(s)]. *)
Definition of_string (s : string) : Path :=
  let (r, rel) := splitroot s in
  {| root := r; parts := segments rel |}.

(** [p.parent]: the path without its last component; a path without
    components is its own parent. *)
Definition parent (p : Path) : Path :=
  match parts p with
  | [] => p
  | _ => {| root := root p; parts := removelast (parts p) |}
  end.

(** [p / key] for a string [key]: an absolute [key] replaces [p], a relative
    one adds its components. *)
Definition truediv (p : Path) (key : string) : Path :=
  let k := of_string key in
  if String.eqb (root k) "" then {| root := root p; parts := parts p ++ parts k |}
  else k.

(** [str(p)]. *)
Definition to_string (p : Path) : string :=
  match root p, parts p with
  | EmptyString, [] => "."
  | r, ps => r ++ Json.join "/" ps
  end.

End PathLib.

(** ** The file system *)

Module FS.

(** What the program can see of the file system: which paths can be opened
    for writing, and the text of the files. *)
Record FileSystem : Type := mkFS {
  can_open_w : string -> bool;
  read_file : string -> option string
}.

(** [open(path, 'w')]: fails when the path cannot be opened, and otherwise
    creates the file or empties it. *)
Definition open_w (path : string) (fs : FileSystem) : option FileSystem :=
  if can_open_w fs path
  then Some {| can_open_w := can_open_w fs;
               read_file := fun p => if String.eqb p path then Some ""
                                     else read_file fs p |}
  else None.

(** [f.write(data)] on the file opened at [path]: the text goes to the end. *)
Definition write (path data : string) (fs : FileSystem) : FileSystem :=
  {| can_open_w := can_open_w fs;
     read_file := fun p => if String.eqb p path
                           then option_map (fun old => old ++ data) (read_file fs p)
                           else read_file fs p |}.

End FS.

(** ** The state and exception monad of the methods *)

Import Py.

(** The fields of a [BatchCreator] object. *)
Record BatchCreator : Type := mkBatchCreator {
  model : string;
  reasoning_effort : string;
  json_schema : option dict;
  system_prompt : string;
  entries : list value
}.

(** What a method call can read and change: the object it is called on, the
    module's [__file__], and the file system. *)
Record World : Type := mkWorld {
  self : BatchCreator;
  dunder_file : string;
  disk : FS.FileSystem
}.

Definition M (A : Type) : Type := World -> result A * World.

Definition ret {A : Type} (a : A) : M A := fun w => (Ok a, w).

Definition bind {A B : Type} (m : M A) (k : A -> M B) : M B :=
  fun w => match m w with
           | (Ok a, w') => k a w'
           | (Raise e, w') => (Raise e, w')
           end.

Definition raise {A : Type} (e : exception) : M A := fun w => (Raise e, w).

(** A result that does not depend on the world. *)
Definition lift {A : Type} (r : result A) : M A := fun w => (r, w).

Notation "x <- m ;; k" := (bind m (fun x => k))
  (at level 61, m at next level, right associativity).
Notation "m ;;; k" := (bind m (fun _ => k))
  (at level 61, right associativity).

(** Reading [self] and the module's [__file__]. *)
Definition get_self : M BatchCreator := fun w => (Ok (self w), w).
Definition get_file : M string := fun w => (Ok (dunder_file w), w).

(** [self.entries = l], also the effect of a method of the list that changes
    it in place. *)
Definition put_entries (l : list value) : M unit :=
  fun w => (Ok tt,
            {| self := {| model := model (self w);
                          reasoning_effort := reasoning_effort (self w);
                          json_schema := json_schema (self w);
                          system_prompt := system_prompt (self w);
                          entries := l |};
               dunder_file := dunder_file w;
               disk := disk w |}).

(** [open(path, 'w', encoding='utf-8')]: a path with a NUL byte is refused
    ([ValueError]) before the file system is asked. *)
Definition open_w (path : string) : M unit :=
  fun w =>
    if contains nul path then (Raise (ValueError "embedded null byte"), w)
    else match FS.open_w path (disk w) with
         | Some fs => (Ok tt, {| self := self w; dunder_file := dunder_file w;
                                 disk := fs |})
         | None => (Raise (OSError path), w)
         end.

(** [f.write(data)] for the file opened at [path]. *)
Definition f_write (path data : string) : M unit :=
  fun w => (Ok tt, {| self := self w; dunder_file := dunder_file w;
                      disk := FS.write path data (disk w) |}).

(** [for x in l: body(x)]. *)
Fixpoint for_each {A : Type} (l : list A) (body : A -> M unit) : M unit :=
  match l with
  | [] => ret tt
  | x :: l' => body x ;;; for_each l' body
  end.

(** ** The class [BatchCreator] *)

(** [BatchCreator(model, reasoning_effort, json_schema, system_prompt)]. *)
Definition init (model reasoning_effort : string) (json_schema : option dict)
    (system_prompt : string) : BatchCreator :=
  {| model := model;
     reasoning_effort := reasoning_effort;
     json_schema := json_schema;
     system_prompt := system_prompt;
     entries := [] |}.

(** The default values of the constructor's arguments. *)
Definition default_init : BatchCreator := init "o4-mini" "medium" None "".

(** [add_entry(self, index, user_prompt)]. *)
Definition add_entry (index user_prompt : string) : M unit :=
  this <- get_self ;;
  let body := dict_display
    [ ("model", VStr (model this));
      ("seed", VInt 334);
      ("reasoning_effort", VStr (reasoning_effort this));
      ("messages", VList
         [ VDict (dict_display [("role", VStr "system");
                                ("content", VStr (system_prompt this))]);
           VDict (dict_display [("role", VStr "user");
                                ("content", VStr user_prompt)]) ]) ] in
  let body :=
    match json_schema this with
    | Some schema =>
        dict_set body "response_format"
          (VDict (dict_display [("type", VStr "json_schema");
                                ("json_schema", VDict schema)]))
    | None => body
    end in
  let entry := dict_display
    [ ("custom_id", VStr index);
      ("method", VStr "POST");
      ("url", VStr "/v1/chat/completions");
      ("body", VDict body) ] in
  put_entries (entries this ++ [VDict entry]).

(** The path [save_to_file] computes from [__file__] and [id]. *)
Definition batch_file_path (file id : string) : PathLib.Path :=
  PathLib.truediv (PathLib.parent (PathLib.parent (PathLib.of_string file)))
    ("data/batches/batch_" ++ id ++ ".jsonl").

(** [save_to_file(self, id)]. *)
Definition save_to_file (id : string) : M unit :=
  file <- get_file ;;
  let file_path := PathLib.to_string (batch_file_path file id) in
  open_w file_path ;;;
  this <- get_self ;;
  for_each (entries this)
    (fun entry =>
       line <- lift (Json.dumps entry) ;;
       f_write file_path (line ++ nl)).

(** [clear_entries(self)]. *)
Definition clear_entries : M unit := put_entries [].

(** [get_entry_count(self)]. *)
Definition get_entry_count : M Z :=
  this <- get_self ;;
  ret (Z.of_nat (length (entries this))).

(** The message of the [IndexError] that [preview_entry] raises: the
    f-string converts the index, then the count. *)
Definition out_of_range_message (index count : Z) : result string :=
  Json.and_then (str_of_int index) (fun i =>
  Json.and_then (str_of_int count) (fun c =>
  Ok ("Index " ++ i ++ " is out of range. Only " ++ c ++ " entries exist."))).

(** [preview_entry(self, index)]. *)
Definition preview_entry (index : Z) : M value :=
  this <- get_self ;;
  if (Z.of_nat (length (entries this)) <=? index)%Z
  then msg <- lift (out_of_range_message index
                      (Z.of_nat (length (entries this)))) ;;
       raise (IndexError msg)
  else lift (list_getitem (entries this) index).

(** ** Histories of method calls *)

(** A call of one of the five methods by the owner of the object. *)
Inductive call : Type :=
| AddEntry (index user_prompt : string)
| SaveToFile (id : string)
| ClearEntries
| GetEntryCount
| PreviewEntry (index : Z).

(** The world after a call; an exception is left to the caller, who goes on
    with the world as the failed call left it. *)
Definition exec (c : call) (w : World) : World :=
  match c with
  | AddEntry index user_prompt => snd (add_entry index user_prompt w)
  | SaveToFile id => snd (save_to_file id w)
  | ClearEntries => snd (clear_entries w)
  | GetEntryCount => snd (get_entry_count w)
  | PreviewEntry index => snd (preview_entry index w)
  end.

(** The calls are made from left to right. *)
Definition run (cs : list call) (w : World) : World :=
  fold_left (fun w c => exec c w) cs w.

(** The world right after [BatchCreator(...)] was evaluated in a module at
    [file], with the file system [fs]. *)
Definition constructed (model reasoning_effort : string) (schema : option dict)
    (system_prompt file : string) (fs : FS.FileSystem) : World :=
  {| self := init model reasoning_effort schema system_prompt;
     dunder_file := file;
     disk := fs |}.

Definition is_clear (c : call) : bool :=
  match c with ClearEntries => true | _ => false end.

(** The calls made after the most recent [ClearEntries], or all of them when
    there was none. *)
Fixpoint since_clear (cs : list call) : list call :=
  match cs with
  | [] => []
  | c :: cs' =>
      if existsb is_clear cs' then since_clear cs'
      else if is_clear c then cs' else c :: cs'
  end.

(** The arguments of the [AddEntry] calls of a history, in order. *)
Fixpoint added (cs : list call) : list (string * string) :=
  match cs with
  | [] => []
  | AddEntry index user_prompt :: cs' => (index, user_prompt) :: added cs'
  | _ :: cs' => added cs'
  end.

(** ** Text of the output file *)

(** The lines of a text, without their newline; a last line need not end
    with one. *)
Fixpoint lines (s : string) : list string :=
  match s with
  | EmptyString => []
  | String c s' =>
      if Ascii.eqb c newline then "" :: lines s'
      else match lines s' with
           | [] => [String c ""]
           | l :: ls => String c l :: ls
           end
  end.

(** A template with apostrophes in place of double quotes. *)
Fixpoint sq (s : string) : string :=
  match s with
  | EmptyString => ""
  | String c s' => String (if Ascii.eqb c "'" then dquote else c) (sq s')
  end.

(** The text of [response_format] in a body, after the key, for a schema
    whose text is [schema_text]. *)
Definition response_format_text (schema_text : string) : string :=
  sq "{'type': 'json_schema', 'json_schema': " ++ schema_text ++ "}".

(** The line the spec gives as the output file format: [response_format],
    when there is a schema, stands between [reasoning_effort] and
    [messages]. *)
Definition spec_line (model effort : string) (schema_text : option string)
    (system_prompt index user_prompt : string) : string :=
  sq "{'custom_id': " ++ Json.encode_basestring index
  ++ sq ", 'method': 'POST', 'url': '/v1/chat/completions', 'body': {'model': "
  ++ Json.encode_basestring model
  ++ sq ", 'seed': 334, 'reasoning_effort': " ++ Json.encode_basestring effort
  ++ match schema_text with
     | Some t => sq ", 'response_format': " ++ response_format_text t
     | None => ""
     end
  ++ sq ", 'messages': [{'role': 'system', 'content': "
  ++ Json.encode_basestring system_prompt
  ++ sq "}, {'role': 'user', 'content': " ++ Json.encode_basestring user_prompt
  ++ "}]}}".

(** The line as the code writes it: [response_format], when there is a
    schema, is the last field of the body, after [messages]. *)
Definition written_line (model effort : string) (schema_text : option string)
    (system_prompt index user_prompt : string) : string :=
  sq "{'custom_id': " ++ Json.encode_basestring index
  ++ sq ", 'method': 'POST', 'url': '/v1/chat/completions', 'body': {'model': "
  ++ Json.encode_basestring model
  ++ sq ", 'seed': 334, 'reasoning_effort': " ++ Json.encode_basestring effort
  ++ sq ", 'messages': [{'role': 'system', 'content': "
  ++ Json.encode_basestring system_prompt
  ++ sq "}, {'role': 'user', 'content': " ++ Json.encode_basestring user_prompt
  ++ "}]"
  ++ match schema_text with
     | Some t => sq ", 'response_format': " ++ response_format_text t
     | None => ""
     end
  ++ "}}".

(** The entry [add_entry] stores, as a value. *)
Definition envelope (model effort : string) (schema : option dict)
    (system_prompt index user_prompt : string) : value :=
  VDict
    [ ("custom_id", VStr index);
      ("method", VStr "POST");
      ("url", VStr "/v1/chat/completions");
      ("body", VDict
         ([ ("model", VStr model);
            ("seed", VInt 334);
            ("reasoning_effort", VStr effort);
            ("messages", VList
               [ VDict [("role", VStr "system"); ("content", VStr system_prompt)];
                 VDict [("role", VStr "user"); ("content", VStr user_prompt)] ]) ]
          ++ match schema with
             | Some s => [ ("response_format",
                            VDict [("type", VStr "json_schema");
                                   ("json_schema", VDict s)]) ]
             | None => []
             end)) ].

(** The entry of an accumulator for one pair of arguments of [add_entry]. *)
Definition envelope_of (this : BatchCreator) (a : string * string) : value :=
  envelope (model this) (reasoning_effort this) (json_schema this)
    (system_prompt this) (fst a) (snd a).

(** Induction on values that reaches the elements of lists and dicts. *)
Section ValueInd.
Variable P : value -> Prop.
Hypothesis HNone : P VNone.
Hypothesis HBool : forall b, P (VBool b).
Hypothesis HInt : forall z, P (VInt z).
Hypothesis HStr : forall s, P (VStr s).
Hypothesis HList : forall l, Forall P l -> P (VList l).
Hypothesis HDict : forall d, Forall (fun kv => P (snd kv)) d -> P (VDict d).

Fixpoint value_nested_ind (v : value) : P v :=
    match v with
    | VNone => HNone
    | VBool b => HBool b
    | VInt z => HInt z
    | VStr s => HStr s
    | VList l =>
        HList l ((fix go (l : list value) : Forall P l :=
                    match l with
                    | [] => Forall_nil P
                    | x :: xs => Forall_cons x (value_nested_ind x) (go xs)
                    end) l)
    | VDict d =>
        HDict d ((fix go (d : list (string * value))
                   : Forall (fun kv => P (snd kv)) d :=
                    match d with
                    | [] => Forall_nil _
                    | kv :: xs =>
                        Forall_cons kv (value_nested_ind (snd kv)) (go xs)
                    end) d)
    end.
End ValueInd.

(** The four fields set by the constructor. *)
Definition config (this : BatchCreator)
  : string * string * option dict * string :=
  (model this, reasoning_effort this, json_schema this, system_prompt this).

(** The object after [add_entry] stored one more entry. *)
Definition with_entry (this : BatchCreator) (index user_prompt : string)
  : BatchCreator :=
  {| model := model this;
     reasoning_effort := reasoning_effort this;
     json_schema := json_schema this;
     system_prompt := system_prompt this;
     entries := entries this ++ [envelope_of this (index, user_prompt)] |}.

(** The text of one item of a dict. *)
Definition dumps_item (kv : string * value) : result string :=
  Json.and_then (Json.dumps (snd kv))
    (fun t => Ok (Json.encode_basestring (fst kv) ++ ": " ++ t)).

(** The text of the schema of an accumulator, when it has one. *)
Definition schema_text (schema : option dict) : result (option string) :=
  match schema with
  | None => Ok None
  | Some s => Json.and_then (Json.dumps (VDict s)) (fun t => Ok (Some t))
  end.

(** A text made of the given lines, each followed by a newline. *)
Definition file_text (ls : list string) : string :=
  fold_right (fun l rest => l ++ nl ++ rest) "" ls.

(** The lines of the entries that [json.dumps] accepts before the first one
    it refuses. *)
Fixpoint dumped (es : list value) : list string :=
  match es with
  | [] => []
  | e :: es' =>
      match Json.dumps e with
      | Ok line => line :: dumped es'
      | Raise _ => []
      end
  end.

(** How encoding the entries one after the other ends. *)
Fixpoint dumped_result (es : list value) : result unit :=
  match es with
  | [] => Ok tt
  | e :: es' =>
      match Json.dumps e with
      | Ok _ => dumped_result es'
      | Raise x => Raise x
      end
  end.

(** The file system after the given lines were written to [path]. *)
Definition written (path : string) (ls : list string) (fs : FS.FileSystem)
  : FS.FileSystem :=
  fold_left (fun fs l => FS.write path (l ++ nl) fs) ls fs.

(** ** Worlds used as examples *)

(** A file system without files where every path can be opened. *)
Definition example_fs : FS.FileSystem :=
  {| FS.can_open_w := fun _ => true; FS.read_file := fun _ => None |}.

(** A file system where no path can be opened. *)
Definition readonly_fs : FS.FileSystem :=
  {| FS.can_open_w := fun _ => false; FS.read_file := fun _ => None |}.

Definition example_file : string := "/srv/app/src/batch_creator.py".

Definition example_schema : dict :=
  [("name", VStr "answer"); ("strict", VBool true)].

(** The example of the spec: no schema, one entry. *)
Definition example_world : World :=
  run [AddEntry "r1" "Hello"]
    (constructed "gpt-test" "low" None "You are helpful." example_file example_fs).

(** The same with a schema. *)
Definition example_world_schema : World :=
  run [AddEntry "r1" "Hello"]
    (constructed "gpt-test" "low" (Some example_schema) "You are helpful."
       example_file example_fs).

(** ** Further notions for histories and texts *)

Definition is_save (c : call) : bool :=
  match c with SaveToFile _ => true | _ => false end.

(** The control characters of a text (codes below 32), in order. *)
Fixpoint controls (s : string) : list ascii :=
  match s with
  | EmptyString => []
  | String c s' =>
      if Nat.ltb (nat_of_ascii c) 32 then c :: controls s' else controls s'
  end.

(** * Properties *)

(** ** Texts *)

Lemma append_assoc (a b c : string) : (a ++ b) ++ c = a ++ (b ++ c).
Proof. induction a as [|x a IH]; simpl; [reflexivity | now rewrite IH]. Qed.

Lemma append_nil_r (a : string) : a ++ "" = a.
Proof. induction a as [|x a IH]; simpl; [reflexivity | now rewrite IH]. Qed.

Lemma contains_app (c : ascii) (a b : string) :
  contains c (a ++ b) = contains c a || contains c b.
Proof.
  induction a as [|x a IH]; simpl; [reflexivity|].
  now rewrite IH, orb_assoc.
Qed.

(** A line followed by its newline is the first line of the text. *)
Lemma lines_app_nl (l rest : string) :
  contains newline l = false ->
  lines (l ++ nl ++ rest) = l :: lines rest.
Proof.
  induction l as [|c l IH]; intros H.
  - reflexivity.
  - simpl in H. apply orb_false_iff in H as [Hc Hl].
    simpl. rewrite Hc. simpl in IH. now rewrite (IH Hl).
Qed.

Lemma lines_file_text (ls : list string) :
  Forall (fun l => contains newline l = false) ls ->
  lines (file_text ls) = ls.
Proof.
  induction 1 as [|l ls Hl Hls IH]; [reflexivity|].
  cbn [file_text fold_right]. rewrite lines_app_nl by exact Hl.
  f_equal. exact IH.
Qed.

Lemma controls_app (a b : string) :
  controls (a ++ b) = (controls a ++ controls b)%list.
Proof.
  induction a as [|c a IH]; simpl; [reflexivity|].
  destruct (Nat.ltb _ 32); simpl; now rewrite IH.
Qed.

(** A text without control characters has no newline. *)
Lemma controls_nil_no_newline (s : string) :
  controls s = [] -> contains newline s = false.
Proof.
  induction s as [|c s IH]; [reflexivity|].
  cbn [controls contains].
  destruct (Nat.ltb (nat_of_ascii c) 32) eqn:E; [discriminate|].
  intros H. rewrite (IH H), orb_false_r.
  destruct (Ascii.eqb_spec c newline) as [->|]; [discriminate E | reflexivity].
Qed.

Lemma controls_file_text (ls : list string) :
  Forall (fun l => controls l = []) ls ->
  controls (file_text ls) = repeat newline (length ls).
Proof.
  induction 1 as [|l ls Hl Hls IH]; [reflexivity|].
  cbn [file_text fold_right length repeat].
  rewrite !controls_app, Hl. fold (file_text ls). rewrite IH. reflexivity.
Qed.

(** ** Converting integers *)

Lemma index_limit_below_int_str_limit : (index_limit < int_str_limit)%Z.
Proof. reflexivity. Qed.

Lemma str_of_int_small (z : Z) :
  (Z.abs z < int_str_limit)%Z -> str_of_int z = Ok (decimal z).
Proof.
  intros H. unfold str_of_int.
  now replace (int_str_limit <=? Z.abs z)%Z with false
    by (symmetry; apply Z.leb_gt; exact H).
Qed.

Lemma str_of_int_large (z : Z) :
  (int_str_limit <= Z.abs z)%Z ->
  exists msg, str_of_int z = Raise (ValueError msg).
Proof.
  intros H. unfold str_of_int. apply Z.leb_le in H. rewrite H.
  eexists. reflexivity.
Qed.

Lemma str_of_int_ok (z : Z) (t : string) :
  str_of_int z = Ok t -> t = decimal z.
Proof.
  unfold str_of_int. destruct (_ <=? _)%Z; [discriminate|].
  now intros [= <-].
Qed.

Lemma str_of_int_seed : str_of_int 334 = Ok "334".
Proof. reflexivity. Qed.

(** ** The encoder *)

Lemma Ok_inj {A : Type} (a b : A) : @Ok A a = Ok b -> a = b.
Proof. now intros [= ->]. Qed.

Lemma sequence_ok {A B : Type} (f : A -> result B) (l : list A)
    (ts : list B) :
  Json.sequence (map f l) = Ok ts -> Forall2 (fun x t => f x = Ok t) l ts.
Proof.
  revert ts. induction l as [|x l IH]; intros ts H.
  - cbn in H. injection H as <-. constructor.
  - cbn [map Json.sequence] in H.
    destruct (f x) as [t|] eqn:Hx; [|discriminate].
    cbn [Json.and_then] in H.
    destruct (Json.sequence (map f l)) as [ts'|]; [|discriminate].
    cbn [Json.and_then] in H. injection H as <-.
    constructor; [exact Hx | now apply IH].
Qed.

Lemma sequence_all_ok {A B : Type} (f : A -> result B) (l : list A)
    (ts : list B) :
  Forall2 (fun x t => f x = Ok t) l ts -> Json.sequence (map f l) = Ok ts.
Proof.
  induction 1 as [|x t l ts Hx _ IH]; [reflexivity|].
  cbn [map Json.sequence]. rewrite Hx, IH. reflexivity.
Qed.

Lemma dumps_dict (d : dict) :
  Json.dumps (VDict d)
  = Json.and_then (Json.sequence (map dumps_item d))
      (fun items => Ok ("{" ++ Json.join ", " items ++ "}")).
Proof. reflexivity. Qed.

Lemma dumps_list (l : list value) :
  Json.dumps (VList l)
  = Json.and_then (Json.sequence (map Json.dumps l))
      (fun items => Ok ("[" ++ Json.join ", " items ++ "]")).
Proof. reflexivity. Qed.

Lemma join_cons (sep x y : string) (l : list string) :
  Json.join sep (x :: y :: l) = x ++ sep ++ Json.join sep (y :: l).
Proof. reflexivity. Qed.

Lemma join_one (sep x : string) : Json.join sep [x] = x.
Proof. reflexivity. Qed.

Lemma controls_escape_char (c : ascii) : controls (Json.escape_char c) = [].
Proof. destruct c as [[] [] [] [] [] [] [] []]; reflexivity. Qed.

Lemma controls_escape (s : string) : controls (Json.escape s) = [].
Proof.
  induction s as [|c s IH]; [reflexivity|].
  simpl. now rewrite controls_app, controls_escape_char, IH.
Qed.

Lemma controls_encode_basestring (s : string) :
  controls (Json.encode_basestring s) = [].
Proof.
  unfold Json.encode_basestring.
  change (String dquote (Json.escape s ++ String dquote ""))
    with (String dquote "" ++ Json.escape s ++ String dquote "").
  now rewrite !controls_app, controls_escape.
Qed.

Lemma controls_string_of_uint (d : Decimal.uint) :
  controls (NilEmpty.string_of_uint d) = [].
Proof. induction d; simpl; auto. Qed.

Lemma controls_decimal (z : Z) : controls (decimal z) = [].
Proof.
  unfold decimal, NilZero.string_of_int, NilZero.string_of_uint.
  destruct (Z.to_int z) as [d|d]; destruct d; simpl;
    auto using controls_string_of_uint.
Qed.

Lemma controls_join (sep : string) (items : list string) :
  controls sep = [] ->
  Forall (fun s => controls s = []) items ->
  controls (Json.join sep items) = [].
Proof.
  intros Hsep Hall. induction Hall as [|x xs Hx Hxs IH]; [reflexivity|].
  destruct xs as [|y ys]; [exact Hx|].
  rewrite join_cons, !controls_app, Hx, Hsep, IH. reflexivity.
Qed.

(** The encoder writes no control character, so no raw newline. *)
Lemma controls_dumps (v : value) (t : string) :
  Json.dumps v = Ok t -> controls t = [].
Proof.
  revert t.
  induction v as [ | b | z | s | l IH | d IH ] using value_nested_ind;
    intros t H.
  - injection H as <-. reflexivity.
  - destruct b; injection H as <-; reflexivity.
  - cbn [Json.dumps] in H. apply str_of_int_ok in H as ->.
    apply controls_decimal.
  - injection H as <-. apply controls_encode_basestring.
  - rewrite dumps_list in H.
    destruct (Json.sequence (map Json.dumps l)) as [items|] eqn:E;
      [|discriminate].
    cbn [Json.and_then] in H. apply Ok_inj in H. subst t.
    apply sequence_ok in E.
    rewrite !controls_app, controls_join; [reflexivity..|].
    induction E as [|x i l' items' Hx _ IHE]; constructor.
    + apply (Forall_inv IH _ Hx).
    + apply IHE. exact (Forall_inv_tail IH).
  - rewrite dumps_dict in H.
    destruct (Json.sequence (map dumps_item d)) as [items|] eqn:E;
      [|discriminate].
    cbn [Json.and_then] in H. apply Ok_inj in H. subst t.
    apply sequence_ok in E.
    rewrite !controls_app, controls_join; [reflexivity..|].
    induction E as [|kv i d' items' Hkv _ IHE]; constructor.
    + unfold dumps_item in Hkv.
      destruct (Json.dumps (snd kv)) as [tv|] eqn:Hv; [|discriminate].
      cbn [Json.and_then] in Hkv. apply Ok_inj in Hkv. subst i.
      rewrite !controls_app, controls_encode_basestring.
      now rewrite (Forall_inv IH _ Hv).
    + apply IHE. exact (Forall_inv_tail IH).
Qed.

Lemma dumps_no_newline (v : value) (t : string) :
  Json.dumps v = Ok t -> contains newline t = false.
Proof. intros H. apply controls_nil_no_newline, (controls_dumps v t H). Qed.

(** ** Rendering an envelope *)

Lemma dumps_str (s : string) :
  Json.dumps (VStr s) = Ok (Json.encode_basestring s).
Proof. reflexivity. Qed.

Lemma dumps_int (z : Z) : Json.dumps (VInt z) = str_of_int z.
Proof. reflexivity. Qed.

(** Evaluates the encoder on a value of known shape; [H] gives the result
    for the part that is not known. *)
Ltac render_with H :=
  repeat first
    [ rewrite H | rewrite dumps_str | rewrite dumps_int
    | rewrite str_of_int_seed | rewrite dumps_dict | rewrite dumps_list
    | progress cbn [map app Json.sequence Json.and_then fst snd]
    | progress unfold dumps_item ].

(** Turns a text into one chain of pieces. *)
Ltac chain :=
  repeat first [ rewrite join_cons | rewrite join_one | rewrite append_assoc ].

Lemma dumps_envelope_no_schema (m e p i u : string) :
  Json.dumps (envelope m e None p i u) = Ok (written_line m e None p i u).
Proof.
  unfold envelope. render_with str_of_int_seed. f_equal.
  unfold written_line. chain.
  generalize (Json.encode_basestring i) (Json.encode_basestring m)
    (Json.encode_basestring e) (Json.encode_basestring p)
    (Json.encode_basestring u).
  intros. reflexivity.
Qed.

Lemma dumps_envelope_schema (m e : string) (s : dict) (t p i u : string) :
  Json.dumps (VDict s) = Ok t ->
  Json.dumps (envelope m e (Some s) p i u)
  = Ok (written_line m e (Some t) p i u).
Proof.
  intros Hs. unfold envelope. render_with Hs. f_equal.
  unfold written_line, response_format_text. chain.
  generalize (Json.encode_basestring i) (Json.encode_basestring m)
    (Json.encode_basestring e) (Json.encode_basestring p)
    (Json.encode_basestring u) t.
  intros. reflexivity.
Qed.

Lemma dumps_envelope_refused (m e : string) (s : dict) (x : exception)
    (p i u : string) :
  Json.dumps (VDict s) = Raise x ->
  Json.dumps (envelope m e (Some s) p i u) = Raise x.
Proof. intros Hs. unfold envelope. render_with Hs. reflexivity. Qed.

(** The line of an entry, by the text of the schema. *)
Lemma dumps_envelope (m e : string) (s : option dict) (p i u : string) :
  Json.dumps (envelope m e s p i u)
  = Json.and_then (schema_text s)
      (fun st => Ok (written_line m e st p i u)).
Proof.
  destruct s as [s|]; cbn [schema_text Json.and_then].
  - destruct (Json.dumps (VDict s)) as [t|x] eqn:Hs; cbn [Json.and_then].
    + now apply dumps_envelope_schema.
    + now apply dumps_envelope_refused.
  - apply dumps_envelope_no_schema.
Qed.

(** Without a schema the code writes the line of the spec. *)
Lemma written_line_no_schema (m e p i u : string) :
  written_line m e None p i u = spec_line m e None p i u.
Proof.
  unfold written_line, spec_line.
  generalize (Json.encode_basestring i) (Json.encode_basestring m)
    (Json.encode_basestring e) (Json.encode_basestring p)
    (Json.encode_basestring u).
  intros. reflexivity.
Qed.

(** ** The methods, one by one *)

Lemma add_entry_eq (index user_prompt : string) (w : World) :
  add_entry index user_prompt w
  = (Ok tt, {| self := with_entry (self w) index user_prompt;
               dunder_file := dunder_file w;
               disk := disk w |}).
Proof.
  unfold add_entry, bind, get_self, put_entries, with_entry, envelope_of, envelope.
  destruct (json_schema (self w)); reflexivity.
Qed.

Lemma clear_entries_eq (w : World) :
  clear_entries w
  = (Ok tt, {| self := {| model := model (self w);
                          reasoning_effort := reasoning_effort (self w);
                          json_schema := json_schema (self w);
                          system_prompt := system_prompt (self w);
                          entries := [] |};
               dunder_file := dunder_file w;
               disk := disk w |}).
Proof. reflexivity. Qed.

Lemma get_entry_count_eq (w : World) :
  get_entry_count w = (Ok (Z.of_nat (length (entries (self w)))), w).
Proof. reflexivity. Qed.

(** [preview_entry] below the count is the indexing of the list. *)
Lemma preview_entry_below (index : Z) (w : World) :
  (index < Z.of_nat (length (entries (self w))))%Z ->
  preview_entry index w = (list_getitem (entries (self w)) index, w).
Proof.
  intros H. unfold preview_entry, bind, get_self, lift.
  now replace (_ <=? index)%Z with false by (symmetry; apply Z.leb_gt; lia).
Qed.

(** [preview_entry] from the count on raises what making the message
    raises, or the [IndexError] with the message. *)
Lemma preview_entry_from_count (index : Z) (w : World) :
  (Z.of_nat (length (entries (self w))) <= index)%Z ->
  preview_entry index w
  = (match out_of_range_message index (Z.of_nat (length (entries (self w)))) with
     | Ok msg => Raise (IndexError msg)
     | Raise e => Raise e
     end, w).
Proof.
  intros H. unfold preview_entry, bind, get_self, lift, raise.
  apply Z.leb_le in H. rewrite H.
  destruct (out_of_range_message _ _); reflexivity.
Qed.

(** [preview_entry] never changes the world. *)
Lemma preview_entry_pure (index : Z) (w : World) :
  snd (preview_entry index w) = w.
Proof.
  destruct (Z.le_gt_cases (Z.of_nat (length (entries (self w)))) index) as [H|H].
  - now rewrite preview_entry_from_count.
  - now rewrite preview_entry_below by lia.
Qed.

(** An index from [0] to the count less one gives the entry at that place. *)
Lemma preview_entry_in_range (index : Z) (w : World) :
  (0 <= index < Z.of_nat (length (entries (self w))))%Z ->
  exists entry,
    nth_error (entries (self w)) (Z.to_nat index) = Some entry
    /\ preview_entry index w = (Ok entry, w).
Proof.
  intros [Hlo Hhi].
  destruct (nth_error (entries (self w)) (Z.to_nat index)) as [entry|] eqn:E.
  2:{ apply nth_error_None in E. lia. }
  exists entry. split; [reflexivity|].
  assert (H1 : (Z.of_nat (length (entries (self w))) <=? index)%Z = false)
    by (apply Z.leb_gt; lia).
  assert (H2 : (index <? 0)%Z = false) by (apply Z.ltb_ge; lia).
  rewrite preview_entry_below by lia. unfold list_getitem.
  rewrite H2. cbn zeta. rewrite H1, H2, E. reflexivity.
Qed.

(** An index from [-n] to [-1] counts from the end. *)
Lemma preview_entry_from_end (index : Z) (w : World) :
  let n := Z.of_nat (length (entries (self w))) in
  (- n <= index < 0)%Z ->
  exists entry,
    nth_error (entries (self w)) (Z.to_nat (n + index)) = Some entry
    /\ preview_entry index w = (Ok entry, w).
Proof.
  intros n [Hlo Hhi].
  destruct (nth_error (entries (self w)) (Z.to_nat (n + index))) as [entry|] eqn:E.
  2:{ apply nth_error_None in E. lia. }
  exists entry. split; [reflexivity|].
  assert (H2 : (index <? 0)%Z = true) by (apply Z.ltb_lt; lia).
  assert (H3 : (index + n <? 0)%Z = false) by (apply Z.ltb_ge; lia).
  assert (H4 : (n <=? index + n)%Z = false) by (apply Z.leb_gt; lia).
  rewrite preview_entry_below by (fold n; lia). unfold list_getitem. fold n.
  rewrite H2. cbn zeta. rewrite H3, H4, (Z.add_comm index n), E.
  reflexivity.
Qed.

(** An index below [-n] raises the interpreter's [IndexError]. *)
Lemma preview_entry_below_range (index : Z) (w : World) :
  (index < - Z.of_nat (length (entries (self w))))%Z ->
  preview_entry index w
  = (Raise (IndexError (if (index <? - index_limit)%Z
                        then "cannot fit 'int' into an index-sized integer"
                        else "list index out of range")), w).
Proof.
  intros H. set (n := Z.of_nat (length (entries (self w)))) in *.
  assert (H2 : (index <? 0)%Z = true) by (apply Z.ltb_lt; lia).
  assert (H3 : (index + n <? 0)%Z = true) by (apply Z.ltb_lt; lia).
  assert (H4 : (index_limit <=? index)%Z = false).
  { apply Z.leb_gt. assert (0 < index_limit)%Z by reflexivity. lia. }
  rewrite preview_entry_below by (fold n; lia). unfold list_getitem. fold n.
  rewrite H2. cbn zeta. rewrite H3, H4, orb_false_r. reflexivity.
Qed.

(** ** Encoding the entries *)

Lemma map_dumps_ok (es : list value) (ls : list string) :
  map Json.dumps es = map Ok ls <->
  Forall2 (fun e l => Json.dumps e = Ok l) es ls.
Proof.
  split.
  - revert ls. induction es as [|e es IH]; intros [|l ls] H;
      try discriminate H; constructor.
    + now injection H.
    + apply IH. now injection H.
  - induction 1 as [|e l es ls He _ IH]; [reflexivity|].
    cbn [map]. now rewrite He, IH.
Qed.

Lemma dumped_all (es : list value) (ls : list string) :
  map Json.dumps es = map Ok ls ->
  dumped es = ls /\ dumped_result es = Ok tt.
Proof.
  intros H. apply map_dumps_ok in H.
  induction H as [|e l es ls He _ [IH1 IH2]]; [split; reflexivity|].
  cbn [dumped dumped_result]. rewrite He, IH1, IH2. split; reflexivity.
Qed.

Lemma dumped_result_ok (es : list value) :
  dumped_result es = Ok tt -> map Json.dumps es = map Ok (dumped es).
Proof.
  induction es as [|e es IH]; [reflexivity|].
  cbn [dumped dumped_result map].
  destruct (Json.dumps e) as [l|x]; [|discriminate].
  intros H. cbn [map]. now rewrite (IH H).
Qed.

Lemma dumped_length (es : list value) :
  dumped_result es = Ok tt -> length (dumped es) = length es.
Proof.
  intros H. apply dumped_result_ok in H.
  apply (f_equal (@length _)) in H. now rewrite !length_map in H.
Qed.

Lemma dumped_controls (es : list value) :
  Forall (fun l => controls l = []) (dumped es).
Proof.
  induction es as [|e es IH]; [constructor|].
  cbn [dumped]. destruct (Json.dumps e) as [l|x] eqn:E; constructor.
  - exact (controls_dumps e l E).
  - exact IH.
Qed.

Lemma dumped_no_newline (es : list value) :
  Forall (fun l => contains newline l = false) (dumped es).
Proof.
  eapply Forall_impl; [|apply dumped_controls].
  intros l. apply controls_nil_no_newline.
Qed.

(** The entries of an accumulator are encoded as the text of its schema
    allows. *)
Lemma map_dumps_envelopes (m e : string) (s : option dict)
    (st : option string) (p : string) (args : list (string * string)) :
  schema_text s = Ok st ->
  map Json.dumps (map (fun a => envelope m e s p (fst a) (snd a)) args)
  = map Ok (map (fun a => written_line m e st p (fst a) (snd a)) args).
Proof.
  intros Hs. rewrite !map_map. apply map_ext. intros a.
  now rewrite dumps_envelope, Hs.
Qed.

(** ** Saving *)

(** The loop of [save_to_file]. *)
Lemma for_each_write (path : string) (es : list value) (w : World) :
  for_each es (fun entry =>
                 line <- lift (Json.dumps entry) ;;
                 f_write path (line ++ nl)) w
  = (dumped_result es,
     {| self := self w; dunder_file := dunder_file w;
        disk := written path (dumped es) (disk w) |}).
Proof.
  revert w. induction es as [|e es IH]; intros [b f d].
  - reflexivity.
  - cbn [for_each dumped dumped_result]. unfold bind at 1.
    unfold bind at 1, lift at 1.
    destruct (Json.dumps e) as [l|x]; [|reflexivity].
    unfold f_write at 1. rewrite IH. reflexivity.
Qed.

Lemma written_can_open (path : string) (ls : list string) (fs : FS.FileSystem) :
  FS.can_open_w (written path ls fs) = FS.can_open_w fs.
Proof.
  revert fs. induction ls as [|l ls IH]; intros fs; [reflexivity|].
  unfold written in *. cbn [fold_left]. now rewrite IH.
Qed.

Lemma written_read (path : string) (ls : list string) (fs : FS.FileSystem)
    (p : string) :
  FS.read_file (written path ls fs) p
  = if String.eqb p path
    then option_map (fun old => old ++ file_text ls) (FS.read_file fs p)
    else FS.read_file fs p.
Proof.
  revert fs. induction ls as [|l ls IH]; intros fs.
  - cbn. destruct (String.eqb p path); [|reflexivity].
    destruct (FS.read_file fs p); cbn; [now rewrite append_nil_r | reflexivity].
  - unfold written in *. cbn [fold_left]. rewrite IH. cbn [FS.write FS.read_file].
    destruct (String.eqb p path); [|reflexivity].
    destruct (FS.read_file fs p); cbn [option_map file_text fold_right];
      [|reflexivity].
    now rewrite !append_assoc.
Qed.

(** What [save_to_file] does, by the path and by whether it can be
    opened. *)
Lemma save_to_file_eq (id : string) (w : World) :
  save_to_file id w
  = let target := PathLib.to_string (batch_file_path (dunder_file w) id) in
    if contains nul target
    then (Raise (ValueError "embedded null byte"), w)
    else match FS.open_w target (disk w) with
         | Some fs =>
             (dumped_result (entries (self w)),
              {| self := self w; dunder_file := dunder_file w;
                 disk := written target (dumped (entries (self w))) fs |})
         | None => (Raise (OSError target), w)
         end.
Proof.
  unfold save_to_file, bind at 1, get_file. cbn zeta.
  unfold bind at 1, open_w.
  destruct (contains nul _); [reflexivity|].
  destruct (FS.open_w _ (disk w)) as [fs|]; [|reflexivity].
  unfold bind at 1, get_self. cbn [self dunder_file disk].
  now rewrite for_each_write.
Qed.

Lemma save_to_file_self (id : string) (w : World) :
  self (snd (save_to_file id w)) = self w.
Proof.
  rewrite save_to_file_eq. cbn zeta.
  destruct (contains nul _); [reflexivity|].
  destruct (FS.open_w _ (disk w)); reflexivity.
Qed.

Lemma save_to_file_dunder_file (id : string) (w : World) :
  dunder_file (snd (save_to_file id w)) = dunder_file w.
Proof.
  rewrite save_to_file_eq. cbn zeta.
  destruct (contains nul _); [reflexivity|].
  destruct (FS.open_w _ (disk w)); reflexivity.
Qed.

Lemma save_to_file_can_open (id : string) (w : World) :
  FS.can_open_w (disk (snd (save_to_file id w))) = FS.can_open_w (disk w).
Proof.
  rewrite save_to_file_eq. cbn zeta.
  destruct (contains nul _); [reflexivity|].
  unfold FS.open_w.
  destruct (FS.can_open_w (disk w) _); [|reflexivity].
  cbn [snd disk]. now rewrite written_can_open.
Qed.

(** A save whose path has a NUL byte. *)
Lemma save_to_file_nul (id : string) (w : World) :
  let target := PathLib.to_string (batch_file_path (dunder_file w) id) in
  contains nul target = true ->
  save_to_file id w = (Raise (ValueError "embedded null byte"), w).
Proof.
  intros target Hnul. rewrite save_to_file_eq. fold target. cbn zeta.
  now rewrite Hnul.
Qed.

(** A save that could not open its path. *)
Lemma save_to_file_fails (id : string) (w : World) :
  let target := PathLib.to_string (batch_file_path (dunder_file w) id) in
  contains nul target = false ->
  FS.can_open_w (disk w) target = false ->
  save_to_file id w = (Raise (OSError target), w).
Proof.
  intros target Hnul Hopen. rewrite save_to_file_eq. fold target. cbn zeta.
  unfold FS.open_w. now rewrite Hnul, Hopen.
Qed.

(** A save that could open its path: how it ends, and the files after. *)
Lemma save_to_file_read (id : string) (w : World) (p : string) :
  let target := PathLib.to_string (batch_file_path (dunder_file w) id) in
  contains nul target = false ->
  FS.can_open_w (disk w) target = true ->
  fst (save_to_file id w) = dumped_result (entries (self w))
  /\ FS.read_file (disk (snd (save_to_file id w))) p
     = if String.eqb p target
       then Some (file_text (dumped (entries (self w))))
       else FS.read_file (disk w) p.
Proof.
  intros target Hnul Hopen. rewrite save_to_file_eq. fold target. cbn zeta.
  unfold FS.open_w. rewrite Hnul, Hopen. split; [reflexivity|].
  cbn [snd disk]. rewrite written_read. cbn [FS.read_file].
  destruct (String.eqb p target); reflexivity.
Qed.

(** A save that returns has opened its path and encoded every entry. *)
Lemma save_to_file_returned (id : string) (w : World) :
  let target := PathLib.to_string (batch_file_path (dunder_file w) id) in
  fst (save_to_file id w) = Ok tt ->
  contains nul target = false
  /\ FS.can_open_w (disk w) target = true
  /\ dumped_result (entries (self w)) = Ok tt.
Proof.
  intros target. rewrite save_to_file_eq. fold target. cbn zeta.
  unfold FS.open_w.
  destruct (contains nul target); [discriminate|].
  destruct (FS.can_open_w (disk w) target); [|discriminate].
  cbn [fst]. intros H. repeat split. exact H.
Qed.

(** A save leaves the files at other paths alone. *)
Lemma save_to_file_other_path (id : string) (w : World) (p : string) :
  p <> PathLib.to_string (batch_file_path (dunder_file w) id) ->
  FS.read_file (disk (snd (save_to_file id w))) p = FS.read_file (disk w) p.
Proof.
  intros Hp.
  set (target := PathLib.to_string (batch_file_path (dunder_file w) id)) in *.
  destruct (contains nul target) eqn:Hnul.
  - now rewrite (save_to_file_nul id w Hnul).
  - destruct (FS.can_open_w (disk w) target) eqn:Hopen.
    + destruct (save_to_file_read id w p Hnul Hopen) as [_ Hread].
      fold target in Hread. apply String.eqb_neq in Hp.
      now rewrite Hp in Hread.
    + now rewrite (save_to_file_fails id w Hnul Hopen).
Qed.

(** ** The path of the output file *)

Lemma split_no_sep (sep : ascii) (s : string) :
  contains sep s = false -> PathLib.split sep s = [s].
Proof.
  induction s as [|c s IH]; intros H; [reflexivity|].
  cbn in H. apply orb_false_iff in H as [Hc Hs].
  cbn. rewrite Hc, (IH Hs). reflexivity.
Qed.

(** The path is [data/batches/] under the parent of the parent of the
    module's path, followed by the components of the file name. *)
Lemma batch_file_path_eq (file id : string) :
  batch_file_path file id
  = let base := PathLib.parent (PathLib.parent (PathLib.of_string file)) in
    {| PathLib.root := PathLib.root base;
       PathLib.parts := PathLib.parts base
         ++ "data" :: "batches" :: PathLib.segments ("batch_" ++ id ++ ".jsonl") |}.
Proof. reflexivity. Qed.

(** An [id] without a slash gives a single file name, with [id] as it is. *)
Lemma segments_file_name (id : string) :
  contains "/" id = false ->
  PathLib.segments ("batch_" ++ id ++ ".jsonl") = ["batch_" ++ id ++ ".jsonl"].
Proof.
  intros H. unfold PathLib.segments.
  rewrite split_no_sep; [reflexivity|].
  rewrite !contains_app, H. reflexivity.
Qed.

(** ** Histories *)

Lemma exec_config (c : call) (w : World) :
  config (self (exec c w)) = config (self w).
Proof.
  destruct c as [i u|id| | |i]; cbn [exec].
  - rewrite add_entry_eq. reflexivity.
  - now rewrite save_to_file_self.
  - reflexivity.
  - reflexivity.
  - now rewrite preview_entry_pure.
Qed.

Lemma exec_dunder_file (c : call) (w : World) :
  dunder_file (exec c w) = dunder_file w.
Proof.
  destruct c as [i u|id| | |i]; cbn [exec].
  - rewrite add_entry_eq. reflexivity.
  - apply save_to_file_dunder_file.
  - reflexivity.
  - reflexivity.
  - now rewrite preview_entry_pure.
Qed.

Lemma exec_can_open (c : call) (w : World) :
  FS.can_open_w (disk (exec c w)) = FS.can_open_w (disk w).
Proof.
  destruct c as [i u|id| | |i]; cbn [exec].
  - rewrite add_entry_eq. reflexivity.
  - apply save_to_file_can_open.
  - reflexivity.
  - reflexivity.
  - now rewrite preview_entry_pure.
Qed.

Lemma exec_entries (c : call) (w : World) :
  entries (self (exec c w))
  = if is_clear c then []
    else (entries (self w) ++ map (envelope_of (self w)) (added [c]))%list.
Proof.
  destruct c as [i u|id| | |i]; cbn [exec is_clear added map].
  - rewrite add_entry_eq. reflexivity.
  - now rewrite save_to_file_self, app_nil_r.
  - reflexivity.
  - now rewrite app_nil_r.
  - now rewrite preview_entry_pure, app_nil_r.
Qed.

Lemma envelope_of_config (a b : BatchCreator) (x : string * string) :
  config a = config b -> envelope_of a x = envelope_of b x.
Proof.
  unfold config, envelope_of. intros H. injection H as -> -> -> ->. reflexivity.
Qed.

Lemma run_cons (c : call) (cs : list call) (w : World) :
  run (c :: cs) w = run cs (exec c w).
Proof. reflexivity. Qed.

Lemma run_config (cs : list call) (w : World) :
  config (self (run cs w)) = config (self w).
Proof.
  revert w. induction cs as [|c cs IH]; intros w; [reflexivity|].
  now rewrite run_cons, IH, exec_config.
Qed.

Lemma run_dunder_file (cs : list call) (w : World) :
  dunder_file (run cs w) = dunder_file w.
Proof.
  revert w. induction cs as [|c cs IH]; intros w; [reflexivity|].
  now rewrite run_cons, IH, exec_dunder_file.
Qed.

Lemma run_can_open (cs : list call) (w : World) :
  FS.can_open_w (disk (run cs w)) = FS.can_open_w (disk w).
Proof.
  revert w. induction cs as [|c cs IH]; intros w; [reflexivity|].
  now rewrite run_cons, IH, exec_can_open.
Qed.

Lemma since_clear_none (cs : list call) :
  existsb is_clear cs = false -> since_clear cs = cs.
Proof.
  destruct cs as [|c cs]; [reflexivity|].
  cbn. intros H. apply orb_false_iff in H as [Hc Hcs]. now rewrite Hcs, Hc.
Qed.

Lemma added_cons (c : call) (cs : list call) :
  added (c :: cs) = (added [c] ++ added cs)%list.
Proof. destruct c; reflexivity. Qed.

(** The entries held after a history are those of the [AddEntry] calls made
    since the last [ClearEntries], in the order of the calls, after the
    entries held before when nothing was cleared. *)
Lemma run_entries (cs : list call) (w : World) :
  entries (self (run cs w))
  = ((if existsb is_clear cs then [] else entries (self w))
      ++ map (envelope_of (self w)) (added (since_clear cs)))%list.
Proof.
  revert w. induction cs as [|c cs IH]; intros w.
  - cbn. now rewrite app_nil_r.
  - rewrite run_cons, IH.
    assert (E : forall x, envelope_of (self (exec c w)) x = envelope_of (self w) x)
      by (intros x; apply envelope_of_config, exec_config).
    rewrite (map_ext _ _ E). cbn [existsb since_clear].
    destruct (existsb is_clear cs) eqn:Hcs.
    + now rewrite orb_true_r.
    + rewrite orb_false_r, (since_clear_none cs Hcs), exec_entries.
      destruct (is_clear c); [reflexivity|].
      rewrite (added_cons c cs), map_app, app_assoc. reflexivity.
Qed.

Lemma constructed_entries (m e : string) (s : option dict) (p file : string)
    (fs : FS.FileSystem) (cs : list call) :
  entries (self (run cs (constructed m e s p file fs)))
  = map (fun a => envelope m e s p (fst a) (snd a)) (added (since_clear cs)).
Proof.
  rewrite run_entries. cbn [constructed self init entries].
  destruct (existsb is_clear cs); reflexivity.
Qed.

(** ** More on paths and histories *)

Lemma length_append (a b : string) :
  String.length (a ++ b) = String.length a + String.length b.
Proof. induction a as [|c a IH]; simpl; [reflexivity | now rewrite IH]. Qed.

Lemma append_inv_head (a x y : string) : a ++ x = a ++ y -> x = y.
Proof.
  induction a as [|c a IH]; simpl; intros H; [exact H|].
  injection H as H. exact (IH H).
Qed.

Lemma append_inv_tail (s x y : string) : x ++ s = y ++ s -> x = y.
Proof.
  revert y. induction x as [|c x IH]; intros [|d y] H.
  - reflexivity.
  - apply (f_equal String.length) in H. simpl in H.
    rewrite length_append in H. lia.
  - apply (f_equal String.length) in H. simpl in H.
    rewrite length_append in H. lia.
  - simpl in H. injection H as -> H. f_equal. exact (IH y H).
Qed.

(** Joining components that end with [x]: what comes before [x] does not
    depend on [x]. *)
Lemma join_snoc (sep : string) (ps : list string) :
  exists pre, forall x, Json.join sep (ps ++ [x]) = pre ++ x.
Proof.
  induction ps as [|p ps [pre IH]].
  - exists "". reflexivity.
  - exists (p ++ sep ++ pre). intros x.
    change ((p :: ps) ++ [x])%list with (p :: (ps ++ [x]))%list.
    destruct (ps ++ [x])%list as [|y ys] eqn:E.
    + apply app_eq_nil in E. destruct E as [_ E]. discriminate E.
    + rewrite join_cons, <- E, IH, !append_assoc. reflexivity.
Qed.

Lemma to_string_snoc (r : string) (ps : list string) (x : string) :
  PathLib.to_string {| PathLib.root := r; PathLib.parts := ps ++ [x] |}
  = r ++ Json.join "/" (ps ++ [x]).
Proof.
  unfold PathLib.to_string. cbn [PathLib.root PathLib.parts].
  destruct r; [|reflexivity].
  destruct (ps ++ [x])%list eqn:E; [|reflexivity].
  apply app_eq_nil in E. destruct E as [_ E]. discriminate E.
Qed.

(** For identifiers without a slash, the path is one text that depends on
    the module's path only, followed by the file name. *)
Lemma batch_file_path_plain (file : string) :
  exists dir, forall id,
    contains "/" id = false ->
    PathLib.to_string (batch_file_path file id)
    = dir ++ "batch_" ++ id ++ ".jsonl".
Proof.
  set (base := PathLib.parent (PathLib.parent (PathLib.of_string file))).
  destruct (join_snoc "/" (PathLib.parts base ++ ["data"; "batches"]))
    as [pre Hpre].
  exists (PathLib.root base ++ pre). intros id Hid.
  rewrite batch_file_path_eq. cbn zeta. fold base.
  rewrite (segments_file_name id Hid).
  set (name := "batch_" ++ id ++ ".jsonl").
  change (PathLib.parts base ++ ["data"; "batches"; name])%list
    with (PathLib.parts base ++ ["data"; "batches"] ++ [name])%list.
  rewrite app_assoc, to_string_snoc, Hpre, append_assoc. reflexivity.
Qed.

Lemma batch_file_path_inj (file id1 id2 : string) :
  contains "/" id1 = false ->
  contains "/" id2 = false ->
  PathLib.to_string (batch_file_path file id1)
  = PathLib.to_string (batch_file_path file id2) ->
  id1 = id2.
Proof.
  intros H1 H2 E. destruct (batch_file_path_plain file) as [dir Hdir].
  rewrite (Hdir id1 H1), (Hdir id2 H2) in E.
  apply append_inv_head in E. apply (append_inv_head "batch_") in E.
  exact (append_inv_tail _ _ _ E).
Qed.

Lemma exec_disk (c : call) (w : World) :
  is_save c = false -> disk (exec c w) = disk w.
Proof.
  destruct c as [i u|id| | |i]; cbn [exec is_save]; intros H.
  - rewrite add_entry_eq. reflexivity.
  - discriminate H.
  - reflexivity.
  - reflexivity.
  - now rewrite preview_entry_pure.
Qed.

Lemma since_clear_after_clear (cs1 cs2 : list call) :
  since_clear (cs1 ++ ClearEntries :: cs2) = since_clear cs2.
Proof.
  induction cs1 as [|c cs1 IH].
  - cbn. destruct (existsb is_clear cs2) eqn:E; [reflexivity|].
    symmetry. exact (since_clear_none cs2 E).
  - cbn [app since_clear]. rewrite existsb_app. cbn [existsb is_clear].
    rewrite orb_true_r. exact IH.
Qed.

Lemma same_fields (a b : BatchCreator) :
  config a = config b -> entries a = entries b -> a = b.
Proof.
  destruct a, b. unfold config. cbn. intros H ->.
  injection H as -> -> -> ->. reflexivity.
Qed.


(** * The claims *)

(** C1. Whatever the accumulator holds, [add_entry(index, user_prompt)]
    returns normally and appends exactly one entry; nothing else changes.
    The entry has the four fields [custom_id], [method], [url] and [body],
    with [custom_id] the given identifier, [method] ["POST"] and [url]
    ["/v1/chat/completions"]; its body holds the configured model, the seed
    [334], the configured reasoning effort, and a [messages] list of exactly
    two records: the system record with the configured system prompt, then
    the user record with the given prompt. *)
Theorem add_entry_appends_envelope (w : World) (index user_prompt : string) :
  exists (w' : World) (entry body : dict),
    add_entry index user_prompt w = (Ok tt, w')
    /\ entries (self w') = (entries (self w) ++ [VDict entry])%list
    /\ config (self w') = config (self w)
    /\ dunder_file w' = dunder_file w
    /\ disk w' = disk w
    /\ dict_keys entry = ["custom_id"; "method"; "url"; "body"]
    /\ dict_get entry "custom_id" = Some (VStr index)
    /\ dict_get entry "method" = Some (VStr "POST")
    /\ dict_get entry "url" = Some (VStr "/v1/chat/completions")
    /\ dict_get entry "body" = Some (VDict body)
    /\ dict_get body "model" = Some (VStr (model (self w)))
    /\ dict_get body "seed" = Some (VInt 334)
    /\ dict_get body "reasoning_effort" = Some (VStr (reasoning_effort (self w)))
    /\ dict_get body "messages"
       = Some (VList
                 [ VDict [("role", VStr "system");
                          ("content", VStr (system_prompt (self w)))];
                   VDict [("role", VStr "user");
                          ("content", VStr user_prompt)] ]).
Proof.
  rewrite add_entry_eq. eexists. eexists. eexists.
  split; [reflexivity|].
  cbn [self with_entry entries envelope_of envelope fst snd].
  split; [reflexivity|].
  repeat split.
Qed.

(** C2. The claim asks for [response_format] between [reasoning_effort] and
    [messages], as the docstring of the class shows it. The code does not
    do that: for an accumulator with a schema and one entry,
    [save_to_file] returns normally and the line it writes has
    [response_format] after [messages], as the last field of the body, so
    the file is not the line of the output file format. *)
Theorem save_to_file_response_format_last :
  fst (save_to_file "abc" example_world_schema) = Ok tt
  /\ FS.read_file (disk (snd (save_to_file "abc" example_world_schema)))
       "/srv/app/data/batches/batch_abc.jsonl"
     = Some (sq ("{'custom_id': 'r1', 'method': 'POST', "
                 ++ "'url': '/v1/chat/completions', "
                 ++ "'body': {'model': 'gpt-test', 'seed': 334, "
                 ++ "'reasoning_effort': 'low', "
                 ++ "'messages': [{'role': 'system', 'content': 'You are helpful.'}, "
                 ++ "{'role': 'user', 'content': 'Hello'}], "
                 ++ "'response_format': {'type': 'json_schema', "
                 ++ "'json_schema': {'name': 'answer', 'strict': true}}}}")
               ++ nl)
  /\ FS.read_file (disk (snd (save_to_file "abc" example_world_schema)))
       "/srv/app/data/batches/batch_abc.jsonl"
     <> Some (spec_line "gpt-test" "low"
                (Some (sq "{'name': 'answer', 'strict': true}"))
                "You are helpful." "r1" "Hello" ++ nl).
Proof.
  assert (E : FS.read_file (disk (snd (save_to_file "abc" example_world_schema)))
                "/srv/app/data/batches/batch_abc.jsonl"
              = Some (written_line "gpt-test" "low"
                        (Some (sq "{'name': 'answer', 'strict': true}"))
                        "You are helpful." "r1" "Hello" ++ nl))
    by reflexivity.
  rewrite E. split; [reflexivity|]. split.
  - reflexivity.
  - intros H.
    apply (f_equal (fun o => match o with Some s => s | None => "" end)) in H.
    revert H. apply String.eqb_neq. reflexivity.
Qed.

(** C3. In every state an accumulator reaches from its construction, each
    entry it holds has a body without a [response_format] field when the
    accumulator was constructed without a schema, and with
    [response_format] equal to [{type: "json_schema", json_schema: s}] when
    it was constructed with the schema [s]. *)
Theorem response_format_follows_schema (m e : string) (schema : option dict)
    (p file : string) (fs : FS.FileSystem) (cs : list call) (entry : value) :
  In entry (entries (self (run cs (constructed m e schema p file fs)))) ->
  exists fields body : dict,
    entry = VDict fields
    /\ dict_get fields "body" = Some (VDict body)
    /\ dict_get body "response_format"
       = match schema with
         | None => None
         | Some s => Some (VDict [("type", VStr "json_schema");
                                  ("json_schema", VDict s)])
         end.
Proof.
  rewrite constructed_entries. intros H.
  apply in_map_iff in H as [[i u] [<- _]].
  unfold envelope. eexists. eexists.
  split; [reflexivity|]. split; [reflexivity|].
  destruct schema; reflexivity.
Qed.

Lemma response_format_follows_schema_witness :
  exists fields body : dict,
    envelope "gpt-test" "low" (Some example_schema) "You are helpful." "r1" "Hello"
    = VDict fields
    /\ dict_get fields "body" = Some (VDict body)
    /\ dict_get body "response_format"
       = Some (VDict [("type", VStr "json_schema");
                      ("json_schema", VDict example_schema)]).
Proof.
  apply (response_format_follows_schema "gpt-test" "low" (Some example_schema)
           "You are helpful." example_file example_fs [AddEntry "r1" "Hello"]).
  simpl. left. reflexivity.
Defined.



(** C5. After any history of calls on a constructed accumulator,
    [get_entry_count()] returns the number of [add_entry] calls made since
    the construction or since the last [clear_entries] call, whichever is
    later, and changes nothing. *)
Theorem entry_count_counts_adds (m e : string) (schema : option dict)
    (p file : string) (fs : FS.FileSystem) (cs : list call) :
  let w := run cs (constructed m e schema p file fs) in
  get_entry_count w = (Ok (Z.of_nat (length (added (since_clear cs)))), w).
Proof.
  intros w. rewrite get_entry_count_eq. unfold w.
  now rewrite constructed_entries, length_map.
Qed.

(** C6. In every state an accumulator reaches from its construction, and for
    every [i] from [0] up to the count less one, [preview_entry(i)] returns
    the entry made by the [i]-th [add_entry] call since the last clearing,
    and leaves the world, the accumulator included, as it was. *)
Theorem preview_entry_in_order (m e : string) (schema : option dict)
    (p file : string) (fs : FS.FileSystem) (cs : list call) (i : Z) :
  let w := run cs (constructed m e schema p file fs) in
  (0 <= i < Z.of_nat (length (entries (self w))))%Z ->
  exists a : string * string,
    nth_error (added (since_clear cs)) (Z.to_nat i) = Some a
    /\ preview_entry i w = (Ok (envelope m e schema p (fst a) (snd a)), w).
Proof.
  intros w Hi.
  destruct (preview_entry_in_range i w Hi) as [entry [Hnth Hprev]].
  unfold w in Hnth. rewrite constructed_entries in Hnth.
  rewrite nth_error_map in Hnth.
  destruct (nth_error (added (since_clear cs)) (Z.to_nat i)) as [a|];
    [|discriminate].
  exists a. split; [reflexivity|].
  injection Hnth as <-. exact Hprev.
Qed.

Lemma preview_entry_in_order_witness :
  exists a : string * string,
    nth_error
      (added (since_clear [AddEntry "r0" "x"; ClearEntries; AddEntry "r1" "Hello";
                           AddEntry "r2" "Bye"])) 1 = Some a
    /\ preview_entry 1
         (run [AddEntry "r0" "x"; ClearEntries; AddEntry "r1" "Hello";
               AddEntry "r2" "Bye"]
            (constructed "gpt-test" "low" None "You are helpful." example_file
               example_fs))
       = (Ok (envelope "gpt-test" "low" None "You are helpful." (fst a) (snd a)),
          run [AddEntry "r0" "x"; ClearEntries; AddEntry "r1" "Hello";
               AddEntry "r2" "Bye"]
            (constructed "gpt-test" "low" None "You are helpful." example_file
               example_fs)).
Proof.
  apply (preview_entry_in_order "gpt-test" "low" None "You are helpful."
           example_file example_fs
           [AddEntry "r0" "x"; ClearEntries; AddEntry "r1" "Hello";
            AddEntry "r2" "Bye"] 1).
  vm_compute. split; [discriminate | reflexivity].
Defined.

(** C7. [save_to_file(id)] reads the accumulator and does not change it:
    whether the file could be written or not, the entries, the count and
    the four configuration fields are afterwards what they were before. *)
Theorem save_to_file_keeps_accumulator (w : World) (id : string) :
  let w' := snd (save_to_file id w) in
  entries (self w') = entries (self w)
  /\ fst (get_entry_count w') = fst (get_entry_count w)
  /\ model (self w') = model (self w)
  /\ reasoning_effort (self w') = reasoning_effort (self w)
  /\ json_schema (self w') = json_schema (self w)
  /\ system_prompt (self w') = system_prompt (self w).
Proof.
  intros w'. unfold w'. rewrite !get_entry_count_eq, save_to_file_self.
  repeat split.
Qed.

(** C8. After [clear_entries()] the accumulator holds no entry:
    [get_entry_count()] returns [0], and a [save_to_file] that follows
    writes no line. Where its path has no NUL byte and can be opened, it
    returns normally and leaves an empty file there; in every case, each
    file is afterwards as it was or empty. *)
Theorem clear_entries_empties (w : World) (id : string) :
  let w1 := snd (clear_entries w) in
  let target := PathLib.to_string (batch_file_path (dunder_file w1) id) in
  fst (clear_entries w) = Ok tt
  /\ entries (self w1) = []
  /\ get_entry_count w1 = (Ok 0%Z, w1)
  /\ (contains nul target = false ->
      FS.can_open_w (disk w1) target = true ->
      exists content,
        fst (save_to_file id w1) = Ok tt
        /\ FS.read_file (disk (snd (save_to_file id w1))) target = Some content
        /\ content = ""
        /\ lines content = [])
  /\ (forall p : string,
        FS.read_file (disk (snd (save_to_file id w1))) p
        = FS.read_file (disk w1) p
        \/ FS.read_file (disk (snd (save_to_file id w1))) p = Some "").
Proof.
  intros w1 target.
  split; [reflexivity|]. split; [reflexivity|]. split; [reflexivity|]. split.
  - intros Hnul Hopen.
    destruct (save_to_file_read id w1 target Hnul Hopen) as [Hok Hread].
    fold target in Hread. rewrite String.eqb_refl in Hread.
    exists "". split; [exact Hok|]. split; [exact Hread|].
    split; reflexivity.
  - intros p. destruct (String.eqb_spec p target) as [->|Hp].
    + destruct (contains nul target) eqn:Hnul.
      * left. now rewrite (save_to_file_nul id w1 Hnul).
      * destruct (FS.can_open_w (disk w1) target) eqn:Hopen.
        -- right.
           destruct (save_to_file_read id w1 target Hnul Hopen) as [_ Hread].
           fold target in Hread. now rewrite String.eqb_refl in Hread.
        -- left. now rewrite (save_to_file_fails id w1 Hnul Hopen).
    + left. now apply save_to_file_other_path.
Qed.

Lemma clear_entries_empties_witness :
  (exists content,
     fst (save_to_file "abc" (snd (clear_entries example_world))) = Ok tt
     /\ FS.read_file
          (disk (snd (save_to_file "abc" (snd (clear_entries example_world)))))
          "/srv/app/data/batches/batch_abc.jsonl" = Some content
     /\ content = ""
     /\ lines content = [])
  /\ get_entry_count (snd (clear_entries example_world))
     = (Ok 0%Z, snd (clear_entries example_world)).
Proof.
  split.
  - apply (proj1 (proj2 (proj2 (proj2
             (clear_entries_empties example_world "abc"))))).
    + reflexivity.
    + reflexivity.
  - apply (proj1 (proj2 (proj2 (clear_entries_empties example_world "abc")))).
Defined.



(** C10. The range check of [preview_entry] only covers indices at or above
    the count. With [n] entries, an index from [-n] to [-1] succeeds and
    returns the entry at position [n + index]; an index below [-n] fails
    with an [IndexError] of the interpreter, whose message is not the one
    that names the index and the count: it is [list index out of range]
    from [-2^63] on, and below that the message for an index that is not of
    the size of an index. *)
Theorem preview_entry_negative_index (w : World) (index : Z) :
  let n := Z.of_nat (length (entries (self w))) in
  ((- n <= index < 0)%Z ->
   exists entry,
     nth_error (entries (self w)) (Z.to_nat (n + index)) = Some entry
     /\ preview_entry index w = (Ok entry, w))
  /\ ((index < - n)%Z ->
      exists msg,
        preview_entry index w = (Raise (IndexError msg), w)
        /\ (forall i c : string,
              msg <> "Index " ++ i ++ " is out of range. Only " ++ c
                       ++ " entries exist.")
        /\ ((- 2 ^ 63 <= index)%Z -> msg = "list index out of range")
        /\ ((index < - 2 ^ 63)%Z ->
            msg = "cannot fit 'int' into an index-sized integer")).
Proof.
  intros n. split.
  - apply preview_entry_from_end.
  - intros Hlt. rewrite (preview_entry_below_range index w Hlt).
    change (2 ^ 63)%Z with index_limit.
    eexists. split; [reflexivity|].
    destruct (Z.ltb_spec index (- index_limit)) as [H|H].
    + split; [discriminate|]. split; [lia | reflexivity].
    + split; [discriminate|]. split; [reflexivity | lia].
Qed.

Lemma preview_entry_negative_index_witness :
  (exists entry,
     nth_error (entries (self example_world)) 0 = Some entry
     /\ preview_entry (-1) example_world = (Ok entry, example_world))
  /\ exists msg,
       preview_entry (-2) example_world = (Raise (IndexError msg), example_world)
       /\ msg = "list index out of range".
Proof.
  split.
  - apply (proj1 (preview_entry_negative_index example_world (-1))).
    vm_compute. split; [discriminate | reflexivity].
  - destruct (proj2 (preview_entry_negative_index example_world (-2)) eq_refl)
      as [msg [Hraise [_ [Hmsg _]]]].
    exists msg. split; [exact Hraise|].
    apply Hmsg. vm_compute. discriminate.
Defined.

(** Without sanitization: a slash or a [..] in the identifier becomes part
    of the path, and a read-only file system makes the save fail with that
    path. *)
Example save_to_file_path_unsafe_id :
  PathLib.to_string (batch_file_path example_file "x/../../../etc/passwd")
  = "/srv/app/data/batches/batch_x/../../../etc/passwd.jsonl"
  /\ fst (save_to_file "abc"
            (constructed "o4-mini" "medium" None "" example_file readonly_fs))
     = Raise (OSError "/srv/app/data/batches/batch_abc.jsonl").
Proof. split; reflexivity. Qed.

(** The example of the spec: one entry, no schema. *)
Example spec_example :
  get_entry_count example_world = (Ok 1%Z, example_world)
  /\ preview_entry 0 example_world
     = (Ok (envelope "gpt-test" "low" None "You are helpful." "r1" "Hello"),
        example_world)
  /\ Json.dumps (envelope "gpt-test" "low" None "You are helpful." "r1" "Hello")
     = Ok (sq ("{'custom_id': 'r1', 'method': 'POST', "
               ++ "'url': '/v1/chat/completions', "
               ++ "'body': {'model': 'gpt-test', 'seed': 334, "
               ++ "'reasoning_effort': 'low', "
               ++ "'messages': [{'role': 'system', 'content': 'You are helpful.'}, "
               ++ "{'role': 'user', 'content': 'Hello'}]}}")).
Proof. repeat split; vm_compute; reflexivity. Qed.

(** The encoder escapes quotes, backslashes and control characters, and
    keeps the bytes of other characters. *)
Example encode_basestring_example :
  Json.encode_basestring
    (String "a" (String dquote (String newline (String "001"%char "b"))))
  = String dquote
      (String "a"
         (String backslash
            (String dquote
               (String backslash
                  (String "n"
                     (String backslash ("u0001b" ++ String dquote "")))))))
  /\ Json.dumps (VList [VInt (-12); VBool false; VNone; VDict []])
     = Ok "[-12, false, null, {}]".
Proof. split; reflexivity. Qed.

(** * Further properties of the class *)

(** A save that returns has written the line of every entry. *)
Lemma save_to_file_returned_lines (id : string) (w : World) :
  let target := PathLib.to_string (batch_file_path (dunder_file w) id) in
  fst (save_to_file id w) = Ok tt ->
  map Json.dumps (entries (self w)) = map Ok (dumped (entries (self w)))
  /\ FS.read_file (disk (snd (save_to_file id w))) target
     = Some (file_text (dumped (entries (self w)))).
Proof.
  intros target Hok.
  destruct (save_to_file_returned id w Hok) as [Hnul [Hopen Hres]].
  split; [exact (dumped_result_ok _ Hres)|].
  destruct (save_to_file_read id w target Hnul Hopen) as [_ Hread].
  fold target in Hread. now rewrite String.eqb_refl in Hread.
Qed.

(** ** Previewing *)

(** X1. On an accumulator without entries, [preview_entry] fails for every
    index and changes nothing. From [0] on it raises the [IndexError] whose
    message names the index and the count [0], as long as the index has at
    most 4300 digits, and [ValueError] for a longer one; below [0] it
    raises the interpreter's [IndexError], [list index out of range] from
    [-2^63] on and the message for an index that is not of the size of an
    index below that. *)
Theorem preview_entry_empty_fails (w : World) (index : Z) :
  entries (self w) = [] ->
  ((0 <= index < 10 ^ 4300)%Z ->
   preview_entry index w
   = (Raise (IndexError ("Index " ++ decimal index
                           ++ " is out of range. Only 0 entries exist.")), w))
  /\ ((10 ^ 4300 <= index)%Z ->
      exists msg, preview_entry index w = (Raise (ValueError msg), w))
  /\ ((- 2 ^ 63 <= index < 0)%Z ->
      preview_entry index w = (Raise (IndexError "list index out of range"), w))
  /\ ((index < - 2 ^ 63)%Z ->
      preview_entry index w
      = (Raise (IndexError "cannot fit 'int' into an index-sized integer"), w)).
Proof.
  intros H.
  assert (Hn : Z.of_nat (length (entries (self w))) = 0%Z) by now rewrite H.
  change (10 ^ 4300)%Z with int_str_limit.
  change (2 ^ 63)%Z with index_limit.
  assert (Hpos : (0 < int_str_limit)%Z) by reflexivity.
  split; [|split; [|split]].
  - intros Hi. rewrite preview_entry_from_count, Hn by lia.
    unfold out_of_range_message.
    rewrite (str_of_int_small index) by lia. reflexivity.
  - intros Hi. rewrite preview_entry_from_count, Hn by lia.
    unfold out_of_range_message.
    destruct (str_of_int_large index) as [msg ->]; [lia|].
    exists msg. reflexivity.
  - intros Hi. rewrite preview_entry_below_range by lia.
    now replace (index <? - index_limit)%Z with false
      by (symmetry; apply Z.ltb_ge; lia).
  - intros Hi.
    assert (0 < index_limit)%Z by reflexivity.
    rewrite preview_entry_below_range by lia.
    now replace (index <? - index_limit)%Z with true
      by (symmetry; apply Z.ltb_lt; lia).
Qed.

Lemma preview_entry_empty_fails_witness :
  preview_entry (-3) (snd (clear_entries example_world))
  = (Raise (IndexError "list index out of range"),
     snd (clear_entries example_world))
  /\ preview_entry 0
       (constructed "o4-mini" "medium" None "" example_file example_fs)
     = (Raise (IndexError "Index 0 is out of range. Only 0 entries exist."),
        constructed "o4-mini" "medium" None "" example_file example_fs).
Proof.
  split.
  - apply (proj1 (proj2 (proj2
             (preview_entry_empty_fails (snd (clear_entries example_world)) (-3)
                eq_refl)))).
    vm_compute. split; [discriminate | reflexivity].
  - apply (proj1
             (preview_entry_empty_fails
                (constructed "o4-mini" "medium" None "" example_file example_fs)
                0 eq_refl)).
    split; [vm_compute; discriminate | reflexivity].
Defined.

(** X2. Right after [add_entry(index, user_prompt)], the new entry is the
    one [preview_entry] returns for the count before the call, and also for
    [-1]. *)
Theorem add_entry_then_preview_last (w : World) (index user_prompt : string) :
  let w' := snd (add_entry index user_prompt w) in
  let new := envelope (model (self w)) (reasoning_effort (self w))
               (json_schema (self w)) (system_prompt (self w))
               index user_prompt in
  preview_entry (Z.of_nat (length (entries (self w)))) w' = (Ok new, w')
  /\ preview_entry (-1) w' = (Ok new, w').
Proof.
  intros w' new.
  assert (Hent : entries (self w') = (entries (self w) ++ [new])%list)
    by (unfold w'; rewrite add_entry_eq; reflexivity).
  assert (Hlen : length (entries (self w')) = S (length (entries (self w))))
    by (rewrite Hent, length_app; simpl; lia).
  assert (Hnth : nth_error (entries (self w')) (length (entries (self w)))
                 = Some new).
  { rewrite Hent, nth_error_app2, Nat.sub_diag by lia. reflexivity. }
  split.
  - destruct (preview_entry_in_range (Z.of_nat (length (entries (self w)))) w')
      as [entry [Hn Hp]]; [rewrite Hlen; lia|].
    rewrite Nat2Z.id, Hnth in Hn. injection Hn as <-. exact Hp.
  - destruct (preview_entry_from_end (-1) w') as [entry [Hn Hp]];
      [rewrite Hlen; lia|].
    replace (Z.to_nat (Z.of_nat (length (entries (self w'))) + -1))
      with (length (entries (self w))) in Hn by (rewrite Hlen; lia).
    rewrite Hnth in Hn. injection Hn as <-. exact Hp.
Qed.

(** X3. [add_entry] leaves the entries held before where they were: an
    index that was in range before the call gives the same entry after it. *)
Theorem add_entry_keeps_earlier_entries (w : World)
    (index user_prompt : string) (j : Z) :
  (0 <= j < Z.of_nat (length (entries (self w))))%Z ->
  fst (preview_entry j (snd (add_entry index user_prompt w)))
  = fst (preview_entry j w).
Proof.
  intros Hj.
  destruct (preview_entry_in_range j w Hj) as [entry [Hn Hp]].
  set (w' := snd (add_entry index user_prompt w)).
  assert (Hent : entries (self w')
                 = (entries (self w)
                      ++ [envelope_of (self w) (index, user_prompt)])%list)
    by (unfold w'; rewrite add_entry_eq; reflexivity).
  destruct (preview_entry_in_range j w') as [entry' [Hn' Hp']].
  { rewrite Hent, length_app. simpl. lia. }
  rewrite Hent, nth_error_app1, Hn in Hn' by lia.
  injection Hn' as <-. now rewrite Hp, Hp'.
Qed.

Lemma add_entry_keeps_earlier_entries_witness :
  fst (preview_entry 0 (snd (add_entry "r2" "Bye" example_world)))
  = fst (preview_entry 0 example_world).
Proof.
  apply (add_entry_keeps_earlier_entries example_world "r2" "Bye" 0).
  vm_compute. split; [discriminate | reflexivity].
Defined.

(** X4. With [n] entries, the indices [i] and [i - n] give the same entry,
    for every [i] from [0] to [n - 1]. *)
Theorem preview_entry_mirror (w : World) (i : Z) :
  let n := Z.of_nat (length (entries (self w))) in
  (0 <= i < n)%Z ->
  preview_entry (i - n) w = preview_entry i w.
Proof.
  intros n Hi.
  destruct (preview_entry_in_range i w Hi) as [entry [Hn Hp]].
  destruct (preview_entry_from_end (i - n) w) as [entry' [Hn' Hp']];
    [fold n; lia|].
  fold n in Hn'. replace (n + (i - n))%Z with i in Hn' by lia.
  rewrite Hn in Hn'. injection Hn' as <-. now rewrite Hp, Hp'.
Qed.

Lemma preview_entry_mirror_witness :
  preview_entry (-1) example_world = preview_entry 0 example_world.
Proof.
  apply (preview_entry_mirror example_world 0).
  vm_compute. split; [discriminate | reflexivity].
Defined.

(** X14. An index at or above the count with more than 4300 digits does
    not get the [IndexError] that names the index and the count: making
    the message raises [ValueError], and the world stays as it was. *)
Theorem preview_entry_huge_index (w : World) (index : Z) :
  (Z.of_nat (length (entries (self w))) <= index)%Z ->
  (10 ^ 4300 <= index)%Z ->
  exists msg, preview_entry index w = (Raise (ValueError msg), w).
Proof.
  intros Hle Hlim. change (10 ^ 4300)%Z with int_str_limit in Hlim.
  rewrite preview_entry_from_count by exact Hle.
  unfold out_of_range_message.
  destruct (str_of_int_large index) as [msg ->]; [lia|].
  exists msg. reflexivity.
Qed.

Lemma preview_entry_huge_index_witness :
  exists msg,
    preview_entry (10 ^ 4300) example_world = (Raise (ValueError msg), example_world).
Proof.
  apply (preview_entry_huge_index example_world (10 ^ 4300)).
  - vm_compute. discriminate.
  - apply Z.le_refl.
Defined.

(** ** Histories *)

(** X5. No method changes the configuration: after any history of calls,
    from any state, the model, the reasoning effort, the schema and the
    system prompt are what they were. *)
Theorem configuration_never_changes (cs : list call) (w : World) :
  model (self (run cs w)) = model (self w)
  /\ reasoning_effort (self (run cs w)) = reasoning_effort (self w)
  /\ json_schema (self (run cs w)) = json_schema (self w)
  /\ system_prompt (self (run cs w)) = system_prompt (self w).
Proof.
  pose proof (run_config cs w) as H. unfold config in H.
  injection H as -> -> -> ->. repeat split.
Qed.

(** X6. Only [save_to_file] touches the file system: a history without a
    save leaves it as it was. *)
Theorem only_save_touches_disk (cs : list call) (w : World) :
  forallb (fun c => negb (is_save c)) cs = true ->
  disk (run cs w) = disk w.
Proof.
  revert w. induction cs as [|c cs IH]; intros w H; [reflexivity|].
  cbn [forallb] in H. apply andb_true_iff in H as [Hc Hcs].
  apply negb_true_iff in Hc.
  now rewrite run_cons, (IH _ Hcs), (exec_disk c w Hc).
Qed.

Lemma only_save_touches_disk_witness :
  disk (run [AddEntry "r2" "Bye"; PreviewEntry 7; GetEntryCount; ClearEntries]
          example_world)
  = disk example_world.
Proof.
  apply (only_save_touches_disk
           [AddEntry "r2" "Bye"; PreviewEntry 7; GetEntryCount; ClearEntries]
           example_world).
  reflexivity.
Defined.

(** ** Saving *)

(** X7. Saving twice in a row under one identifier is the same as saving
    once: the second call has the result of the first and leaves every
    file and the accumulator as the first left them. The file is written
    anew, not extended. *)
Theorem save_to_file_twice (w : World) (id : string) :
  let w1 := snd (save_to_file id w) in
  let w2 := snd (save_to_file id w1) in
  fst (save_to_file id w1) = fst (save_to_file id w)
  /\ self w2 = self w1
  /\ forall p : string, FS.read_file (disk w2) p = FS.read_file (disk w1) p.
Proof.
  intros w1 w2.
  set (target := PathLib.to_string (batch_file_path (dunder_file w) id)).
  assert (Hfile : dunder_file w1 = dunder_file w)
    by apply save_to_file_dunder_file.
  assert (Hself : self w1 = self w) by apply save_to_file_self.
  assert (Hcan : FS.can_open_w (disk w1) = FS.can_open_w (disk w))
    by apply save_to_file_can_open.
  destruct (contains nul target) eqn:Hnul.
  { assert (E : save_to_file id w = (Raise (ValueError "embedded null byte"), w))
      by apply (save_to_file_nul id w Hnul).
    unfold w2, w1. rewrite !E. cbn [snd fst]. rewrite !E. repeat split. }
  destruct (FS.can_open_w (disk w) target) eqn:Hopen.
  - assert (Hnul1 : contains nul
                      (PathLib.to_string (batch_file_path (dunder_file w1) id))
                    = false) by (rewrite Hfile; exact Hnul).
    assert (Hopen1 : FS.can_open_w (disk w1)
                       (PathLib.to_string (batch_file_path (dunder_file w1) id))
                     = true) by (rewrite Hfile, Hcan; exact Hopen).
    destruct (save_to_file_read id w target Hnul Hopen) as [Hok _].
    destruct (save_to_file_read id w1 target Hnul1 Hopen1) as [Hok1 _].
    split; [now rewrite Hok1, Hok, Hself|].
    split; [apply save_to_file_self|].
    intros p.
    destruct (save_to_file_read id w1 p Hnul1 Hopen1) as [_ Hr1].
    destruct (save_to_file_read id w p Hnul Hopen) as [_ Hr].
    fold w2 in Hr1. fold w1 in Hr. rewrite Hr1, Hr, Hfile, Hself.
    fold target. destruct (String.eqb p target); reflexivity.
  - assert (E : save_to_file id w = (Raise (OSError target), w))
      by apply (save_to_file_fails id w Hnul Hopen).
    unfold w2, w1. rewrite !E. cbn [snd fst]. rewrite !E.
    repeat split.
Qed.

(** X8. What is saved is what is previewed: after a [save_to_file] that
    returned normally, line [i] of the file written is the JSON text of the
    entry that [preview_entry(i)] returns, for every [i] from [0] to the
    count less one. *)
Theorem saved_line_is_previewed_entry (w : World) (id : string) (i : Z) :
  let target := PathLib.to_string (batch_file_path (dunder_file w) id) in
  fst (save_to_file id w) = Ok tt ->
  (0 <= i < Z.of_nat (length (entries (self w))))%Z ->
  exists (entry : value) (line content : string),
    preview_entry i w = (Ok entry, w)
    /\ Json.dumps entry = Ok line
    /\ FS.read_file (disk (snd (save_to_file id w))) target = Some content
    /\ nth_error (lines content) (Z.to_nat i) = Some line.
Proof.
  intros target Hok Hi.
  destruct (preview_entry_in_range i w Hi) as [entry [Hn Hp]].
  destruct (save_to_file_returned_lines id w Hok) as [Hall Hread].
  fold target in Hread.
  apply (f_equal (fun l => nth_error l (Z.to_nat i))) in Hall.
  rewrite !nth_error_map, Hn in Hall. cbn [option_map] in Hall.
  destruct (nth_error (dumped (entries (self w))) (Z.to_nat i)) as [line|] eqn:El;
    [|discriminate].
  cbn [option_map] in Hall. injection Hall as Hline.
  exists entry, line, (file_text (dumped (entries (self w)))).
  split; [exact Hp|]. split; [exact Hline|]. split; [exact Hread|].
  now rewrite lines_file_text by apply dumped_no_newline.
Qed.

Lemma saved_line_is_previewed_entry_witness :
  exists (entry : value) (line content : string),
    preview_entry 0 example_world = (Ok entry, example_world)
    /\ Json.dumps entry = Ok line
    /\ FS.read_file (disk (snd (save_to_file "abc" example_world)))
         "/srv/app/data/batches/batch_abc.jsonl" = Some content
    /\ nth_error (lines content) 0 = Some line.
Proof.
  apply (saved_line_is_previewed_entry example_world "abc" 0).
  - reflexivity.
  - vm_compute. split; [discriminate | reflexivity].
Defined.

(** X9. After a [save_to_file] that returned normally, the file written
    holds no control character except the newline that ends each line, and
    exactly one of those per entry: a newline, a carriage return or a tab
    inside a prompt, an identifier or the schema never reaches the file as
    it is. *)
Theorem saved_file_control_characters (w : World) (id : string) :
  let target := PathLib.to_string (batch_file_path (dunder_file w) id) in
  fst (save_to_file id w) = Ok tt ->
  exists content : string,
    FS.read_file (disk (snd (save_to_file id w))) target = Some content
    /\ controls content = repeat newline (length (entries (self w))).
Proof.
  intros target Hok.
  destruct (save_to_file_returned_lines id w Hok) as [_ Hread].
  destruct (save_to_file_returned id w Hok) as [_ [_ Hres]].
  eexists. split; [exact Hread|].
  rewrite controls_file_text by apply dumped_controls.
  now rewrite (dumped_length _ Hres).
Qed.

Lemma saved_file_control_characters_witness :
  exists content : string,
    FS.read_file
      (disk (snd (save_to_file "abc"
                    (snd (add_entry "r2" (String "a" (String newline "b"))
                            example_world)))))
      "/srv/app/data/batches/batch_abc.jsonl" = Some content
    /\ controls content = [newline; newline].
Proof.
  apply (saved_file_control_characters
           (snd (add_entry "r2" (String "a" (String newline "b")) example_world))
           "abc").
  reflexivity.
Defined.

(** X15. For an accumulator that holds [n] entries after a history of
    calls and whose schema, if any, can be encoded, [save_to_file], where
    its path has no NUL byte and can be opened, returns normally and
    writes exactly [n] lines, one per entry in the order of insertion. Each
    line is the envelope with the seed [334] and, when there is a schema,
    [response_format] as the last field of the body; without a schema it is
    the line of the output file format. *)
Theorem save_to_file_lines (m e : string) (schema : option dict)
    (st : option string) (p file : string) (fs : FS.FileSystem)
    (cs : list call) (id : string) :
  let w := run cs (constructed m e schema p file fs) in
  let target := PathLib.to_string (batch_file_path file id) in
  schema_text schema = Ok st ->
  contains nul target = false ->
  FS.can_open_w fs target = true ->
  exists content,
    fst (save_to_file id w) = Ok tt
    /\ FS.read_file (disk (snd (save_to_file id w))) target = Some content
    /\ length (lines content) = length (entries (self w))
    /\ lines content
       = map (fun a => written_line m e st p (fst a) (snd a))
           (added (since_clear cs))
    /\ (schema = None ->
        lines content
        = map (fun a => spec_line m e None p (fst a) (snd a))
            (added (since_clear cs))).
Proof.
  intros w target Hs Hnul Hopen.
  assert (Hfile : dunder_file w = file) by apply run_dunder_file.
  assert (Hall : map Json.dumps (entries (self w))
                 = map Ok (map (fun a => written_line m e st p (fst a) (snd a))
                             (added (since_clear cs)))).
  { unfold w. rewrite constructed_entries. now apply map_dumps_envelopes. }
  destruct (dumped_all _ _ Hall) as [Hdumped Hres].
  destruct (save_to_file_read id w target) as [Hok Hread].
  { now rewrite Hfile. }
  { rewrite Hfile. unfold w. now rewrite run_can_open. }
  rewrite Hfile in Hread. fold target in Hread.
  rewrite String.eqb_refl, Hdumped in Hread. rewrite Hres in Hok.
  assert (Hlines : lines (file_text (map (fun a => written_line m e st p (fst a) (snd a))
                                       (added (since_clear cs))))
                   = map (fun a => written_line m e st p (fst a) (snd a))
                       (added (since_clear cs))).
  { apply lines_file_text. rewrite <- Hdumped. apply dumped_no_newline. }
  eexists. split; [exact Hok|]. split; [exact Hread|].
  rewrite Hlines. split; [|split].
  - unfold w. now rewrite constructed_entries, !length_map.
  - reflexivity.
  - intros ->. cbn [schema_text] in Hs. injection Hs as <-.
    apply map_ext. intros a. apply written_line_no_schema.
Qed.

Lemma save_to_file_lines_witness :
  exists content,
    fst (save_to_file "abc" example_world) = Ok tt
    /\ FS.read_file (disk (snd (save_to_file "abc" example_world)))
         "/srv/app/data/batches/batch_abc.jsonl" = Some content
    /\ length (lines content) = 1
    /\ lines content
       = [spec_line "gpt-test" "low" None "You are helpful." "r1" "Hello"].
Proof.
  destruct (save_to_file_lines "gpt-test" "low" None None "You are helpful."
              example_file example_fs [AddEntry "r1" "Hello"] "abc"
              eq_refl eq_refl eq_refl)
    as [content [Hok [Hread [Hlen [_ Hspec]]]]].
  exists content. split; [exact Hok|]. split; [exact Hread|].
  split; [exact Hlen | exact (Hspec eq_refl)].
Defined.

(** X16. When the schema cannot be encoded (it holds an [int] of more than
    4300 digits) and the accumulator holds an entry, [save_to_file], where
    its path has no NUL byte and can be opened, raises the exception of the
    encoder after the file was opened: the file is left empty. *)
Theorem save_to_file_refused_schema (m e : string) (schema : option dict)
    (x : exception) (p file : string) (fs : FS.FileSystem)
    (cs : list call) (id : string) :
  let w := run cs (constructed m e schema p file fs) in
  let target := PathLib.to_string (batch_file_path file id) in
  schema_text schema = Raise x ->
  added (since_clear cs) <> [] ->
  contains nul target = false ->
  FS.can_open_w fs target = true ->
  fst (save_to_file id w) = Raise x
  /\ FS.read_file (disk (snd (save_to_file id w))) target = Some "".
Proof.
  intros w target Hs Hne Hnul Hopen.
  assert (Hfile : dunder_file w = file) by apply run_dunder_file.
  destruct (save_to_file_read id w target) as [Hok Hread].
  { now rewrite Hfile. }
  { rewrite Hfile. unfold w. now rewrite run_can_open. }
  rewrite Hfile in Hread. fold target in Hread.
  rewrite String.eqb_refl in Hread.
  unfold w in Hok, Hread. rewrite constructed_entries in Hok, Hread.
  destruct (added (since_clear cs)) as [|a args]; [now elim Hne|].
  cbn [map dumped dumped_result] in Hok, Hread.
  rewrite dumps_envelope, Hs in Hok, Hread. cbn [Json.and_then] in Hok, Hread.
  split; assumption.
Qed.

Lemma save_to_file_refused_schema_witness :
  exists msg,
    fst (save_to_file "abc"
           (run [AddEntry "r1" "Hello"]
              (constructed "gpt-test" "low"
                 (Some [("maximum", VInt int_str_limit)]) "" "/m.py" example_fs)))
    = Raise (ValueError msg)
    /\ FS.read_file
         (disk (snd (save_to_file "abc"
                       (run [AddEntry "r1" "Hello"]
                          (constructed "gpt-test" "low"
                             (Some [("maximum", VInt int_str_limit)]) ""
                             "/m.py" example_fs)))))
         (PathLib.to_string (batch_file_path "/m.py" "abc"))
       = Some "".
Proof.
  destruct (str_of_int_large int_str_limit) as [msg Hmsg].
  { assert (0 < int_str_limit)%Z by reflexivity. lia. }
  exists msg.
  apply (save_to_file_refused_schema "gpt-test" "low"
           (Some [("maximum", VInt int_str_limit)]) (ValueError msg) ""
           "/m.py" example_fs [AddEntry "r1" "Hello"] "abc").
  - cbn [schema_text]. rewrite dumps_dict. cbn [map Json.sequence].
    unfold dumps_item. cbn [fst snd]. rewrite dumps_int, Hmsg. reflexivity.
  - discriminate.
  - reflexivity.
  - reflexivity.
Defined.

(** ** The path of the output file *)

(** X10. For identifiers without a slash, the path opened is one directory
    text, fixed by the module's path, followed by [batch_], the identifier
    character for character, and [.jsonl]. *)
Theorem batch_file_path_verbatim (file : string) :
  exists dir : string, forall id : string,
    contains "/" id = false ->
    PathLib.to_string (batch_file_path file id)
    = dir ++ "batch_" ++ id ++ ".jsonl".
Proof. exact (batch_file_path_plain file). Qed.

Lemma batch_file_path_verbatim_witness :
  exists dir : string,
    PathLib.to_string (batch_file_path "/m.py" "2024 01")
    = dir ++ "batch_2024 01.jsonl".
Proof.
  destruct (batch_file_path_verbatim "/m.py") as [dir H].
  exists dir. apply (H "2024 01"). reflexivity.
Defined.

(** X11. Two different identifiers without a slash never share a file. *)
Theorem distinct_ids_distinct_paths (file id1 id2 : string) :
  contains "/" id1 = false ->
  contains "/" id2 = false ->
  id1 <> id2 ->
  PathLib.to_string (batch_file_path file id1)
  <> PathLib.to_string (batch_file_path file id2).
Proof.
  intros H1 H2 Hne E. apply Hne. exact (batch_file_path_inj file id1 id2 H1 H2 E).
Qed.

Lemma distinct_ids_distinct_paths_witness :
  PathLib.to_string (batch_file_path example_file "2024 01")
  <> PathLib.to_string (batch_file_path example_file "2024 02").
Proof.
  apply (distinct_ids_distinct_paths example_file "2024 01" "2024 02").
  - reflexivity.
  - reflexivity.
  - discriminate.
Defined.

(** With slashes the identifiers can collide: an empty or single-dot
    component is dropped from the path. *)
Example slash_ids_collide (file : string) :
  PathLib.to_string (batch_file_path file "a//b")
  = PathLib.to_string (batch_file_path file "a/./b").
Proof.
  rewrite !batch_file_path_eq. cbn zeta.
  change ("batch_" ++ "a//b" ++ ".jsonl") with "batch_a//b.jsonl".
  change ("batch_" ++ "a/./b" ++ ".jsonl") with "batch_a/./b.jsonl".
  replace (PathLib.segments "batch_a//b.jsonl")
    with (PathLib.segments "batch_a/./b.jsonl") by (vm_compute; reflexivity).
  reflexivity.
Qed.

(** X12. A save under another identifier does not disturb a saved batch:
    after a [save_to_file(id1)] that returned normally and a call with a
    different [id2], both without a slash, the file of [id1] still holds
    the lines of the first save, whether the second call succeeds or
    not. *)
Theorem save_to_file_other_id (w : World) (id1 id2 : string) :
  let target := PathLib.to_string (batch_file_path (dunder_file w) id1) in
  contains "/" id1 = false ->
  contains "/" id2 = false ->
  id1 <> id2 ->
  fst (save_to_file id1 w) = Ok tt ->
  exists ls : list string,
    map Json.dumps (entries (self w)) = map Ok ls
    /\ FS.read_file (disk (snd (save_to_file id1 w))) target
       = Some (file_text ls)
    /\ FS.read_file
         (disk (snd (save_to_file id2 (snd (save_to_file id1 w))))) target
       = Some (file_text ls).
Proof.
  intros target H1 H2 Hne Hok.
  destruct (save_to_file_returned_lines id1 w Hok) as [Hall Hread].
  fold target in Hread.
  exists (dumped (entries (self w))).
  split; [exact Hall|]. split; [exact Hread|].
  rewrite save_to_file_other_path; [exact Hread|].
  rewrite save_to_file_dunder_file. intros E.
  apply Hne. exact (batch_file_path_inj _ id1 id2 H1 H2 E).
Qed.

Lemma save_to_file_other_id_witness :
  exists ls : list string,
    map Json.dumps (entries (self example_world)) = map Ok ls
    /\ FS.read_file (disk (snd (save_to_file "b1" example_world)))
         "/srv/app/data/batches/batch_b1.jsonl"
       = Some (file_text ls)
    /\ FS.read_file
         (disk (snd (save_to_file "b2" (snd (save_to_file "b1" example_world)))))
         "/srv/app/data/batches/batch_b1.jsonl"
       = Some (file_text ls).
Proof.
  apply (save_to_file_other_id example_world "b1" "b2").
  - reflexivity.
  - reflexivity.
  - discriminate.
  - reflexivity.
Defined.

(** ** Clearing *)

(** X13. [clear_entries] starts the accumulator afresh: once it was called,
    nothing done before it matters, and the accumulator is the one that the
    calls made since then give on a newly constructed object. *)
Theorem clear_entries_starts_afresh (m e : string) (schema : option dict)
    (p file file' : string) (fs fs' : FS.FileSystem) (cs1 cs2 : list call) :
  self (run (cs1 ++ ClearEntries :: cs2) (constructed m e schema p file fs))
  = self (run cs2 (constructed m e schema p file' fs')).
Proof.
  apply same_fields.
  - now rewrite !run_config.
  - now rewrite !constructed_entries, since_clear_after_clear.
Qed.
